(** * PPM productivity quick app: the quota, submission, login and summary logic

    A shallow embedding of [ppm_quick_app.py] (the base variant) and
    [ppm_quick_app_no_verification.py] (the variant with a phone login), and the
    properties of the repository's specification stated and settled over it.

    Modelling conventions.
    - A pandas [DataFrame] is its header (the column labels, in order) and its
      rows.  Rows are typed records, one field per column the application
      reads or writes; a label that is absent from the header makes the read
      raise [KeyError], as [df[label]] does.
    - A cell is [NaN] (a blank spreadsheet cell as [read_excel] and [read_csv]
      deliver it), Python's [None], or a value.  Text columns hold strings and
      the quantity columns of the project list hold whole numbers or blanks.
      The four count columns of the submissions log hold whole numbers without
      blanks, which is the case in which pandas keeps them as [int64] columns;
      their sums wrap around as [int64] sums do.  The [Date] column holds the
      [datetime.date] of a new record or the [Timestamp] that [read_excel]
      delivers, both as day numbers.
    - A string is its sequence of characters, a character being its code
      point; text is limited to code points below 256.
    - A Python [float] is an IEEE 754 binary64 number, in the representation
      of the library's [SpecFloat].
    - Python exceptions are the [Raise] results of the [res] monad.
    - The workbook and the users file are explicit stores that the saving
      functions update; a write is taken to succeed.  A sheet of the workbook
      is the frame [read_excel] makes of it and the users file is the table
      [to_csv] wrote; what is written and read again goes through the
      conversions of the file formats ([excel_text], [excel_date],
      [csv_text]). *)

From Stdlib Require Import ZArith List String Ascii Bool Lia.
From Stdlib Require Import Orders Sorted Permutation Mergesort.
From Stdlib Require SpecFloat.
Import ListNotations.

Local Open Scope string_scope.
Local Open Scope Z_scope.

Set Implicit Arguments.

(** ** Python values and exceptions *)

Inductive exn : Type :=
| KeyError | ValueError | TypeError | AttributeError | IndexError
| FileNotFoundError | ZeroDivisionError | OverflowError
| StreamlitAPIException.

Inductive res (A : Type) : Type :=
| Ok (a : A)
| Raise (e : exn).
Arguments Ok {A} a.
Arguments Raise {A} e.

Definition bind {A B : Type} (c : res A) (k : A -> res B) : res B :=
  match c with
  | Ok a => k a
  | Raise e => Raise e
  end.

Notation "'let*' x ':=' c 'in' k" := (bind c (fun x => k))
  (at level 10, x name, c at level 100, k at level 200).

Inductive cell (A : Type) : Type :=
| NaN
| PyNone
| Val (a : A).
Arguments NaN {A}.
Arguments PyNone {A}.
Arguments Val {A} a.

(** [pd.isna]: both [NaN] and [None] count as missing. *)
Definition isna {A : Type} (c : cell A) : bool :=
  match c with
  | Val _ => false
  | _ => true
  end.

(** Truth value of a number cell: [bool(float('nan'))] is [True]. *)
Definition truthy_num (c : cell Z) : bool :=
  match c with
  | NaN => true
  | PyNone => false
  | Val z => negb (z =? 0)
  end.

(** Truth value of a text value. *)
Definition truthy_str (c : cell string) : bool :=
  match c with
  | NaN => true
  | PyNone => false
  | Val s => negb (s =? "")%string
  end.

(** [x or 0] *)
Definition or_0 (x : cell Z) : cell Z :=
  if truthy_num x then x else Val 0.

(** [int(x)] *)
Definition int (x : cell Z) : res Z :=
  match x with
  | NaN => Raise ValueError
  | PyNone => Raise TypeError
  | Val z => Ok z
  end.

(** Element-wise [==] of a text cell with a scalar: a missing value on either
    side compares unequal. *)
Definition str_eq (c v : cell string) : bool :=
  match c, v with
  | Val a, Val b => (a =? b)%string
  | _, _ => false
  end.

(** The value a signed 64-bit integer takes for a whole number: the number
    modulo 2^64, in the range from -2^63 to 2^63 - 1. *)
Definition int64 (z : Z) : Z :=
  (z + 9223372036854775808) mod 18446744073709551616 - 9223372036854775808.

(** [Series.sum()] of an [int64] column: the cells are added up from the
    first to the last in 64-bit arithmetic, the empty sum is 0. *)
Definition series_sum (s : list Z) : Z :=
  fold_left (fun acc z => int64 (acc + z)) s 0.

(** ** What the file formats keep of a cell *)

(** The texts the pandas readers take for a missing value. *)
Definition na_values : list string :=
  [""; "#N/A"; "#N/A N/A"; "#NA"; "-1.#IND"; "-1.#QNAN"; "-NaN"; "-nan";
   "1.#IND"; "1.#QNAN"; "<NA>"; "N/A"; "NA"; "NULL"; "NaN"; "None"; "n/a";
   "nan"; "null"].

Definition is_na (s : string) : bool := existsb (String.eqb s) na_values.

(** A text cell after [to_csv] and [read_csv(..., dtype=str)]: a missing
    value is written as the empty field, and a field that is one of the
    missing-value texts is read as [NaN]. *)
Definition csv_text (c : cell string) : cell string :=
  match c with
  | Val s => if is_na s then NaN else Val s
  | _ => NaN
  end.

(** openpyxl stores a text of more than one character that starts with "="
    as a formula, and the texts of the spreadsheet error values as errors;
    both are read back as a missing value. *)
Definition is_formula (s : string) : bool :=
  match s with
  | String "="%char (String _ _) => true
  | _ => false
  end.

Definition error_codes : list string :=
  ["#NULL!"; "#DIV/0!"; "#VALUE!"; "#REF!"; "#NAME?"; "#NUM!"; "#N/A"].

Definition is_error_code (s : string) : bool :=
  existsb (String.eqb s) error_codes.

(** A text cell after [to_excel] and [read_excel]: openpyxl keeps the first
    32767 characters, a missing value is written as an empty cell. *)
Definition excel_text (c : cell string) : cell string :=
  match c with
  | Val s =>
      let s := substring 0 (Z.to_nat 32767) s in
      if is_formula s || is_error_code s || is_na s then NaN else Val s
  | _ => NaN
  end.

(** A date: the [datetime.date] that [datetime.date.today()] returns or the
    [Timestamp] (at midnight) of a [datetime64] column, by its day number. *)
Inductive DateValue : Type :=
| PyDate (day : Z)
| Timestamp (day : Z).

(** A date cell after [to_excel] and [read_excel]. *)
Definition excel_date (c : cell DateValue) : cell DateValue :=
  match c with
  | Val (PyDate d) => Val (Timestamp d)
  | Val (Timestamp d) => Val (Timestamp d)
  | _ => NaN
  end.

(** ** Data frames *)

Record DataFrame (R : Type) : Type := mkDataFrame {
  columns : list string;
  rows : list R
}.

Record Column (R A : Type) : Type := mkColumn {
  label : string;
  field : R -> A
}.

Section Frames.
Context {R : Type}.

Definition has_column (df : DataFrame R) (l : string) : bool :=
  existsb (String.eqb l) (columns df).

(** [df.empty] *)
Definition empty (df : DataFrame R) : bool :=
  match columns df, rows df with
  | [], _ => true
  | _, [] => true
  | _, _ => false
  end.

(** [df[label]] *)
Definition getitem {A : Type} (df : DataFrame R) (c : Column R A)
  : res (list A) :=
  if has_column df (label c) then Ok (map (field c) (rows df))
  else Raise KeyError.

(** [df[label] == v], as the predicate that the boolean mask tabulates. *)
Definition eq_mask (df : DataFrame R) (c : Column R (cell string))
  (v : cell string) : res (R -> bool) :=
  if has_column df (label c) then Ok (fun r => str_eq (field c r) v)
  else Raise KeyError.

(** [df.loc[mask]] *)
Definition loc (df : DataFrame R) (mask : R -> bool) : DataFrame R :=
  {| columns := columns df; rows := filter mask (rows df) |}.

(** [df.loc[(df[c1] == v1) & (df[c2] == v2)]] *)
Definition loc_eq2 (df : DataFrame R) (c1 : Column R (cell string))
  (v1 : cell string) (c2 : Column R (cell string)) (v2 : cell string)
  : res (DataFrame R) :=
  let* m1 := eq_mask df c1 v1 in
  let* m2 := eq_mask df c2 v2 in
  Ok (loc df (fun r => m1 r && m2 r)).

(** [df.iloc[0][label]] *)
Definition iloc0 {A : Type} (df : DataFrame R) (c : Column R A) : res A :=
  match rows df with
  | [] => Raise IndexError
  | r :: _ => if has_column df (label c) then Ok (field c r)
              else Raise KeyError
  end.

(** [row.get(label, default)] for a row of [df] *)
Definition row_get {A : Type} (df : DataFrame R) (r : R) (c : Column R A)
  (default : A) : A :=
  if has_column df (label c) then field c r else default.

(** [row[label]] for a row of [df] *)
Definition row_getitem {A : Type} (df : DataFrame R) (r : R)
  (c : Column R A) : res A :=
  if has_column df (label c) then Ok (field c r) else Raise KeyError.

(** [df.dropna(subset=[...])]: a row goes when one of the listed cells is
    missing. *)
Definition dropna (df : DataFrame R) (subset : list (Column R (cell string)))
  : res (DataFrame R) :=
  if forallb (fun c => has_column df (label c)) subset
  then Ok (loc df (fun r => forallb (fun c => negb (isna (field c r))) subset))
  else Raise KeyError.

(** [pd.concat([df, pd.DataFrame([row])], ignore_index=True)] where the new
    row carries the labels [row_labels]: the header is the union, old labels
    first, and the new row comes last. *)
Definition concat_row (df : DataFrame R) (row_labels : list string) (row : R)
  : DataFrame R :=
  {| columns := columns df
                ++ filter (fun l => negb (has_column df l)) row_labels;
     rows := rows df ++ [row] |}.
End Frames.

(** ** The tables of the workbook and the users registry *)

(** Sheet "Project List". *)
Module ProjectList.
Record Row : Type := mkRow {
  project_owner : cell string;
  project_name : cell string;
  emirate : cell string;
  indoors_qty : cell Z;
  vrf_od_qty : cell Z;
  dx_outdoor_qty : cell Z;
  ahu_qty : cell Z
}.

Definition Project_Owner := mkColumn "Project Owner" project_owner.
Definition Project_Name := mkColumn "Project Name" project_name.
Definition Emirate := mkColumn "Emirate" emirate.
Definition Indoors_Qty := mkColumn "Indoors Qty" indoors_qty.
Definition VRF_OD_Qty := mkColumn "VRF OD Qty" vrf_od_qty.
Definition DX_Outdoor_Qty := mkColumn "DX Outdoor Qty" dx_outdoor_qty.
Definition AHU_Qty := mkColumn "AHU Qty" ahu_qty.

Definition labels : list string :=
  ["Project Owner"; "Project Name"; "Emirate"; "Indoors Qty"; "VRF OD Qty";
   "DX Outdoor Qty"; "AHU Qty"].
End ProjectList.

(** Sheet "Technician List". *)
Module TechnicianList.
Record Row : Type := mkRow {
  technician_name : cell string
}.

Definition Technician_Name := mkColumn "Technician Name" technician_name.
End TechnicianList.

(** Sheet "Inputs", the submissions log. *)
Module Inputs.
Record Row : Type := mkRow {
  date : cell DateValue;
  project_owner : cell string;
  project_name : cell string;
  emirate : cell string;
  indoors_completed : Z;
  vrf_od_completed : Z;
  dx_outdoor_completed : Z;
  ahu_completed : Z;
  technician_name_1 : cell string;
  technician_name_2 : cell string;
  technician_name_3 : cell string;
  helper_name_1 : cell string;
  helper_name_2 : cell string;
  helper_name_3 : cell string
}.

Definition Project_Owner := mkColumn "Project Owner" project_owner.
Definition Project_Name := mkColumn "Project Name" project_name.
Definition Indoors_Completed := mkColumn "Indoors Completed" indoors_completed.
Definition VRF_OD_Completed := mkColumn "VRF OD Completed" vrf_od_completed.
Definition DX_Outdoor_Completed :=
  mkColumn "DX Outdoor Completed" dx_outdoor_completed.
Definition AHU_Completed := mkColumn "AHU Completed" ahu_completed.

(** The labels of the frame [load_data] creates when the sheet is absent, and
    the keys of the row dictionary a submission builds. *)
Definition labels : list string :=
  ["Date"; "Project Owner"; "Project Name"; "Emirate"; "Indoors Completed";
   "VRF OD Completed"; "DX Outdoor Completed"; "AHU Completed";
   "Technician name 1"; "Technician name 2"; "Technician name 3";
   "Helper name 1"; "Helper name 2"; "Helper name 3"].

(** A row of the log after [to_excel] and [read_excel]. *)
Definition excel_row (r : Row) : Row :=
  {| date := excel_date (date r);
     project_owner := excel_text (project_owner r);
     project_name := excel_text (project_name r);
     emirate := excel_text (emirate r);
     indoors_completed := indoors_completed r;
     vrf_od_completed := vrf_od_completed r;
     dx_outdoor_completed := dx_outdoor_completed r;
     ahu_completed := ahu_completed r;
     technician_name_1 := excel_text (technician_name_1 r);
     technician_name_2 := excel_text (technician_name_2 r);
     technician_name_3 := excel_text (technician_name_3 r);
     helper_name_1 := excel_text (helper_name_1 r);
     helper_name_2 := excel_text (helper_name_2 r);
     helper_name_3 := excel_text (helper_name_3 r) |}.

(** The log as [read_excel] delivers it once [to_excel] has written it. *)
Definition excel_frame (df : DataFrame Row) : DataFrame Row :=
  {| columns := columns df; rows := map excel_row (rows df) |}.
End Inputs.

(** The registry [users.csv]. *)
Module Users.
Record Row : Type := mkRow {
  phone : cell string;
  name : cell string;
  role : cell string
}.

Definition Phone := mkColumn "phone" phone.
Definition Role := mkColumn "role" role.

Definition labels : list string := ["phone"; "name"; "role"].

(** A row of the registry after [to_csv] and [read_csv]. *)
Definition csv_row (r : Row) : Row :=
  {| phone := csv_text (phone r);
     name := csv_text (name r);
     role := csv_text (role r) |}.
End Users.

(** The workbook [PPM App Data.xlsx]: a sheet is present or not. *)
Record Workbook : Type := mkWorkbook {
  sheet_Project_List : option (DataFrame ProjectList.Row);
  sheet_Technician_List : option (DataFrame TechnicianList.Row);
  sheet_Inputs : option (DataFrame Inputs.Row)
}.

(** [pd.read_excel(xls, sheet_name=...)]: a missing sheet raises
    [ValueError]. *)
Definition read_excel {R : Type} (sheet : option (DataFrame R))
  : res (DataFrame R) :=
  match sheet with
  | Some df => Ok df
  | None => Raise ValueError
  end.

(** [pd.ExcelFile(file_path)]: [None] is a path at which there is no file. *)
Definition ExcelFile (file : option Workbook) : res Workbook :=
  match file with
  | Some xls => Ok xls
  | None => Raise FileNotFoundError
  end.

(** ** Strings: [str.endswith], [str.strip], [str.lower] *)

(** [s.endswith(suffix)] *)
Definition endswith (s suffix : string) : bool :=
  let n := String.length s in
  let k := String.length suffix in
  (k <=? n)%nat && (substring (n - k) k s =? suffix)%string.

(** The characters for which [str.isspace] holds: tab, line feed, vertical
    tab, form feed, carriage return, the four separators 28..31, the space,
    next line (133) and the no-break space (160). *)
Definition isspace (c : ascii) : bool :=
  let n := nat_of_ascii c in
  ((9 <=? n) && (n <=? 13) || (28 <=? n) && (n <=? 32)
   || (n =? 133) || (n =? 160))%nat.

Fixpoint lstrip (s : string) : string :=
  match s with
  | EmptyString => EmptyString
  | String c s' => if isspace c then lstrip s' else s
  end.

(** [rstrip] keeps a character when it is not a space or when something
    remains to its right. *)
Fixpoint rstrip (s : string) : string :=
  match s with
  | EmptyString => EmptyString
  | String c s' =>
      match rstrip s' with
      | EmptyString => if isspace c then EmptyString else String c EmptyString
      | t => String c t
      end
  end.

(** [s.strip()] *)
Definition strip (s : string) : string := rstrip (lstrip s).

(** The lower-case form of a character: the letters A-Z and the accented
    capitals 192..222 other than the multiplication sign 215 move up by 32. *)
Definition lower_char (c : ascii) : ascii :=
  let n := nat_of_ascii c in
  if ((65 <=? n) && (n <=? 90)
      || (192 <=? n) && (n <=? 222) && negb (n =? 215))%nat
  then ascii_of_nat (n + 32) else c.

Fixpoint lower_string (s : string) : string :=
  match s with
  | EmptyString => EmptyString
  | String c s' => String (lower_char c) (lower_string s')
  end.

(** [x.lower()] on a cell: only a string has the method. *)
Definition lower (x : cell string) : res string :=
  match x with
  | Val s => Ok (lower_string s)
  | _ => Raise AttributeError
  end.

(** ** Loading and saving the workbook *)

(** [try: body except <handled>: handler] *)
Definition try_except {A : Type} (body : res A) (handled : exn -> bool)
  (handler : res A) : res A :=
  match body with
  | Ok a => Ok a
  | Raise e => if handled e then handler else Raise e
  end.

Definition except_ValueError (e : exn) : bool :=
  match e with
  | ValueError => true
  | _ => false
  end.

Definition except_Exception (e : exn) : bool := true.

(** [inputs_df.drop(columns=cols_to_drop)] *)
Definition drop_columns {R : Type} (df : DataFrame R) (cols : list string)
  : DataFrame R :=
  {| columns := filter (fun c => negb (existsb (String.eqb c) cols))
                       (columns df);
     rows := rows df |}.

(** The body of the [try] block of [load_data], the same in both files. *)
Definition read_inputs (xls : Workbook) : res (DataFrame Inputs.Row) :=
  let* inputs_df := read_excel (sheet_Inputs xls) in
  let cols_to_drop :=
    filter (fun c => endswith c "Compelet") (columns inputs_df) in
  match cols_to_drop with
  | [] => Ok inputs_df
  | _ => Ok (drop_columns inputs_df cols_to_drop)
  end.

(** [pd.DataFrame(columns=[...])] of the [except] branch. *)
Definition empty_inputs : DataFrame Inputs.Row :=
  {| columns := Inputs.labels; rows := [] |}.

Definition Tables : Type :=
  (DataFrame ProjectList.Row * DataFrame TechnicianList.Row
   * DataFrame Inputs.Row)%type.

(** [with pd.ExcelWriter(path, mode="a", if_sheet_exists="replace") as writer:
    inputs_df.to_excel(writer, sheet_name="Inputs", index=False)]: the writer
    opens an existing file, replaces the sheet "Inputs" and keeps the other
    sheets.  The new sheet is kept as [read_excel] will deliver it. *)
Definition to_excel_Inputs (path : option Workbook)
  (inputs_df : DataFrame Inputs.Row) : res (option Workbook) :=
  match path with
  | None => Raise FileNotFoundError
  | Some xls =>
      Ok (Some {| sheet_Project_List := sheet_Project_List xls;
                  sheet_Technician_List := sheet_Technician_List xls;
                  sheet_Inputs := Some (Inputs.excel_frame inputs_df) |})
  end.

(** [ppm_quick_app.py] *)
Module QuickApp.
Definition load_data (file_path : option Workbook) : res Tables :=
  let* xls := ExcelFile file_path in
  let* project_df := read_excel (sheet_Project_List xls) in
  let* technician_df := read_excel (sheet_Technician_List xls) in
  let* inputs_df :=
    try_except (read_inputs xls) except_ValueError (Ok empty_inputs) in
  Ok (project_df, technician_df, inputs_df).

(** [save_submission] *)
Definition save_submission (file_path : option Workbook)
  (inputs_df : DataFrame Inputs.Row) : res (option Workbook) :=
  to_excel_Inputs file_path inputs_df.

(** [main], lines 138-141: load, then drop the rows without identity. *)
Definition main_load (file_path : option Workbook) : res Tables :=
  let* loaded := load_data file_path in
  let '(project_df, technician_df, inputs_df) := loaded in
  let* project_df :=
    dropna project_df
      [ProjectList.Project_Owner; ProjectList.Project_Name] in
  let* technician_df :=
    dropna technician_df [TechnicianList.Technician_Name] in
  Ok (project_df, technician_df, inputs_df).
End QuickApp.

(** [ppm_quick_app_no_verification.py] *)
Module NoVerification.
Definition load_data (file_path : option Workbook) : res Tables :=
  let* xls := ExcelFile file_path in
  let* project_df := read_excel (sheet_Project_List xls) in
  let* technician_df := read_excel (sheet_Technician_List xls) in
  let* inputs_df :=
    try_except (read_inputs xls) except_Exception (Ok empty_inputs) in
  let* project_df :=
    dropna project_df
      [ProjectList.Project_Owner; ProjectList.Project_Name] in
  let* technician_df :=
    dropna technician_df [TechnicianList.Technician_Name] in
  Ok (project_df, technician_df, inputs_df).

(** [save_inputs], on the workbook at [DATA_FILE]. *)
Definition save_inputs (data_file : option Workbook)
  (inputs_df : DataFrame Inputs.Row) : res (option Workbook) :=
  to_excel_Inputs data_file inputs_df.
End NoVerification.

(** ** The entry form: remaining quotas and submission

    The two files share this code word for word ([ppm_quick_app.py] lines
    161-274, [ppm_quick_app_no_verification.py] lines 269-372), up to the name
    of the saving function, which is a parameter here. *)

Record Quotas : Type := mkQuotas {
  indoor : Z;
  vrf : Z;
  dx : Z;
  ahu : Z
}.




Section EntryForm.
Variable project_df : DataFrame ProjectList.Row.
Variable inputs_df : DataFrame Inputs.Row.
(** The selections of the two [st.selectbox] widgets; [PyNone] when a box has
    no option to offer. *)
Variables project_owner project_name : cell string.

(** [project_df.loc[(project_df["Project Owner"] == project_owner)
    & (project_df["Project Name"] == project_name)]] *)
Definition project_match : res (DataFrame ProjectList.Row) :=
  loc_eq2 project_df ProjectList.Project_Owner project_owner
    ProjectList.Project_Name project_name.

(** Step 3: the emirate shown next to the project. *)
Definition lookup_emirate : res (cell string) :=
  if truthy_str project_name then
    let* matched := project_match in
    if negb (empty matched) then iloc0 matched ProjectList.Emirate
    else Ok (Val "")
  else Ok (Val "").

(** [int(row.iloc[0][label] or 0)] *)
Definition total (project_row : DataFrame ProjectList.Row)
  (c : Column ProjectList.Row (cell Z)) : res Z :=
  let* x := iloc0 project_row c in
  int (or_0 x).

(** [int(frame[label].sum())] *)
Definition completed (frame : DataFrame Inputs.Row)
  (c : Column Inputs.Row Z) : res Z :=
  let* s := getitem frame c in
  Ok (series_sum s).

(** Step 4: how many units remain for the selected project. *)
Definition remaining : res Quotas :=
  if truthy_str project_name then
    let* project_row := project_match in
    if negb (empty project_row) then
      let* total_indoor := total project_row ProjectList.Indoors_Qty in
      let* total_vrf := total project_row ProjectList.VRF_OD_Qty in
      let* total_dx := total project_row ProjectList.DX_Outdoor_Qty in
      let* total_ahu := total project_row ProjectList.AHU_Qty in
      let* inputs_for_project :=
        loc_eq2 inputs_df Inputs.Project_Owner project_owner
          Inputs.Project_Name project_name in
      let* completed_indoor :=
        completed inputs_for_project Inputs.Indoors_Completed in
      let* completed_vrf :=
        completed inputs_for_project Inputs.VRF_OD_Completed in
      let* completed_dx :=
        completed inputs_for_project Inputs.DX_Outdoor_Completed in
      let* completed_ahu :=
        completed inputs_for_project Inputs.AHU_Completed in
      Ok {| indoor := Z.max (total_indoor - completed_indoor) 0;
            vrf := Z.max (total_vrf - completed_vrf) 0;
            dx := Z.max (total_dx - completed_dx) 0;
            ahu := Z.max (total_ahu - completed_ahu) 0 |}
    else Ok (mkQuotas 0 0 0 0)
  else Ok (mkQuotas 0 0 0 0).


(** The values the form hands to the submit step. *)
Variable today : Z.
Variable emirate : cell string.
Variables indoors_completed vrf_completed dx_completed ahu_completed : Z.
Variables tech_selected helper_selected : list string.

(** [selected[i] if len(selected) > i else ""] *)
Definition name_at (selected : list string) (i : nat) : cell string :=
  Val (nth i selected "").

(** The [row] dictionary of the submit step. *)
Definition new_row : Inputs.Row :=
  {| Inputs.date := Val (PyDate today);
     Inputs.project_owner := project_owner;
     Inputs.project_name := project_name;
     Inputs.emirate := emirate;
     Inputs.indoors_completed := indoors_completed;
     Inputs.vrf_od_completed := vrf_completed;
     Inputs.dx_outdoor_completed := dx_completed;
     Inputs.ahu_completed := ahu_completed;
     Inputs.technician_name_1 := name_at tech_selected 0;
     Inputs.technician_name_2 := name_at tech_selected 1;
     Inputs.technician_name_3 := name_at tech_selected 2;
     Inputs.helper_name_1 := name_at helper_selected 0;
     Inputs.helper_name_2 := name_at helper_selected 1;
     Inputs.helper_name_3 := name_at helper_selected 2 |}.

(** Step 6, [if st.button("Submit"):] append the row and save.  The result
    is the log the page goes on to display, and the workbook. *)
Definition submit
  (save : option Workbook -> DataFrame Inputs.Row -> res (option Workbook))
  (file : option Workbook) (submit_clicked : bool)
  : res (DataFrame Inputs.Row * option Workbook) :=
  if submit_clicked then
    let inputs_df' := concat_row inputs_df Inputs.labels new_row in
    let* file' := save file inputs_df' in
    Ok (inputs_df', file')
  else Ok (inputs_df, file).
End EntryForm.

(** ** The users registry and the login page
    ([ppm_quick_app_no_verification.py]) *)

(** What is at [USERS_FILE]: nothing, a file [read_csv] cannot parse, or a
    table, kept as the frame that [to_csv] wrote. *)
Inductive UsersFile : Type :=
| NoFile
| Unparsable
| Csv (users : DataFrame Users.Row).

(** [USERS_FILE.exists()] *)
Definition exists_ (f : UsersFile) : bool :=
  match f with
  | NoFile => false
  | _ => true
  end.

(** [pd.read_csv(USERS_FILE, dtype=str)]; the parser's errors are subclasses
    of [ValueError], among them the one for a file without a header.  Every
    field goes through the reader's conversion of missing values. *)
Definition read_csv (f : UsersFile) : res (DataFrame Users.Row) :=
  match f with
  | NoFile => Raise FileNotFoundError
  | Unparsable => Raise ValueError
  | Csv users =>
      match columns users with
      | [] => Raise ValueError
      | _ => Ok {| columns := columns users;
                   rows := map Users.csv_row (rows users) |}
      end
  end.

(** [pd.DataFrame(columns=["phone", "name", "role"])] *)
Definition empty_users : DataFrame Users.Row :=
  {| columns := Users.labels; rows := [] |}.

Definition load_users (users_file : UsersFile) : DataFrame Users.Row :=
  if exists_ users_file then
    match read_csv users_file with
    | Ok users => users
    | Raise _ => empty_users  (* except Exception *)
    end
  else empty_users.

(** [users.to_csv(USERS_FILE, index=False)] *)
Definition save_users (users : DataFrame Users.Row) : UsersFile := Csv users.

(** [st.session_state] once its three keys are set. *)
Record SessionState : Type := mkSession {
  logged_in : bool;
  is_admin : bool;
  phone : string
}.

(** [value in df[label].values] *)
Definition contains {R : Type} (df : DataFrame R)
  (c : Column R (cell string)) (value : string) : res bool :=
  let* s := getitem df c in
  Ok (existsb (fun x => str_eq x (Val value)) s).

(** Lines 202-211 of [show_login]: look the phone up, or register it.  The
    result is the admin flag and the users file. *)
Definition authenticate (users_file : UsersFile)
  (users : DataFrame Users.Row) (phone : string) : res (bool * UsersFile) :=
  let* known := contains users Users.Phone phone in
  if known then
    let* mask := eq_mask users Users.Phone (Val phone) in
    let* user_role := iloc0 (loc users mask) Users.Role in
    let* lowered := lower user_role in
    Ok ((lowered =? "admin")%string, users_file)
  else
    let new_row := Users.mkRow (Val phone) (Val "") (Val "user") in
    let users := concat_row users Users.labels new_row in
    Ok (false, save_users users).

(** [show_login].  [session] is [None] while [st.session_state] has no key
    'logged_in'; [phone_input] is the text in the box and [login_clicked]
    tells whether the Login button was pressed in this run.  The result is the
    returned triple, the session state and the users file. *)
Definition show_login (session : option SessionState) (users_file : UsersFile)
  (users : DataFrame Users.Row) (phone_input : string) (login_clicked : bool)
  : res ((bool * bool * string) * SessionState * UsersFile) :=
  let session_state :=
    match session with
    | None => mkSession false false ""
    | Some s => s
    end in
  if negb (logged_in session_state) then
    if login_clicked then
      let phone := strip phone_input in
      if negb (phone =? "")%string then
        let* auth := authenticate users_file users phone in
        let '(is_admin, users_file') := auth in
        Ok ((true, is_admin, phone), mkSession true is_admin phone,
            users_file')
      else Ok ((false, false, phone), session_state, users_file)
    else Ok ((false, false, ""), session_state, users_file)
  else
    Ok ((true, is_admin session_state, phone session_state), session_state,
        users_file).

(** The first steps of [main]: load the registry, then show the login. *)
Definition main_login (session : option SessionState) (users_file : UsersFile)
  (phone_input : string) (login_clicked : bool)
  : res ((bool * bool * string) * SessionState * UsersFile) :=
  let users := load_users users_file in
  show_login session users_file users phone_input login_clicked.

(** ** The administrator's summary
    ([ppm_quick_app_no_verification.py], lines 385-432) *)

Record SummaryRow : Type := mkSummaryRow {
  Project_Owner : cell string;
  Project_Name : cell string;
  Indoors_Completed : Z;
  Indoors_Total : Z;
  VRF_OD_Completed : Z;
  VRF_OD_Total : Z;
  DX_Outdoor_Completed : Z;
  DX_Outdoor_Total : Z;
  AHU_Completed : Z;
  AHU_Total : Z
}.

Section Summary.
Variable project_df : DataFrame ProjectList.Row.
Variable inputs_df : DataFrame Inputs.Row.

(** [int(p_row.get(label, 0) or 0)] *)
Definition total_of (p_row : ProjectList.Row)
  (c : Column ProjectList.Row (cell Z)) : res Z :=
  int (or_0 (row_get project_df p_row c (Val 0))).

(** The body of the loop over [project_df.iterrows()]. *)
Definition summary_row (p_row : ProjectList.Row) : res SummaryRow :=
  let* owner := row_getitem project_df p_row ProjectList.Project_Owner in
  let* proj := row_getitem project_df p_row ProjectList.Project_Name in
  let* total_indoor := total_of p_row ProjectList.Indoors_Qty in
  let* total_vrf := total_of p_row ProjectList.VRF_OD_Qty in
  let* total_dx := total_of p_row ProjectList.DX_Outdoor_Qty in
  let* total_ahu := total_of p_row ProjectList.AHU_Qty in
  let* prev :=
    loc_eq2 inputs_df Inputs.Project_Owner owner
      Inputs.Project_Name proj in
  let* completed_indoor := completed prev Inputs.Indoors_Completed in
  let* completed_vrf := completed prev Inputs.VRF_OD_Completed in
  let* completed_dx := completed prev Inputs.DX_Outdoor_Completed in
  let* completed_ahu := completed prev Inputs.AHU_Completed in
  Ok {| Project_Owner := owner;
        Project_Name := proj;
        Indoors_Completed := completed_indoor;
        Indoors_Total := total_indoor;
        VRF_OD_Completed := completed_vrf;
        VRF_OD_Total := total_vrf;
        DX_Outdoor_Completed := completed_dx;
        DX_Outdoor_Total := total_dx;
        AHU_Completed := completed_ahu;
        AHU_Total := total_ahu |}.

(** [summary_rows] after the loop: one [append] per project row, in order;
    an exception in one iteration ends the loop. *)
Fixpoint summary_loop (p_rows : list ProjectList.Row)
  : res (list SummaryRow) :=
  match p_rows with
  | [] => Ok []
  | p_row :: rest =>
      let* row := summary_row p_row in
      let* rows := summary_loop rest in
      Ok (row :: rows)
  end.

Definition summary_rows : res (list SummaryRow) :=
  summary_loop (rows project_df).
End Summary.










(** ** The lists the page offers and the pages it shows *)

(** Strings in Python's order: by code point, a proper prefix first. *)
Module StringOrder <: TotalLeBool.
Definition t : Type := string.
Definition leb : string -> string -> bool := String.leb.
Definition leb_total : forall s1 s2, leb s1 s2 = true \/ leb s2 s1 = true :=
  String.leb_total.
End StringOrder.

Module StringSort := Sort StringOrder.

(** [sorted(xs)] on strings. *)
Definition sorted (xs : list string) : list string := StringSort.sort xs.

(** [series.dropna()] on a text column: the strings that are left. *)
Fixpoint series_dropna (s : list (cell string)) : list string :=
  match s with
  | [] => []
  | Val v :: s' => v :: series_dropna s'
  | _ :: s' => series_dropna s'
  end.

(** [series.unique()]: each value once, in the order of first appearance. *)
Fixpoint unique (xs : list string) : list string :=
  match xs with
  | [] => []
  | x :: xs' => x :: filter (fun y => negb (y =? x)%string) (unique xs')
  end.

(** [sorted(project_df["Project Owner"].dropna().unique())] *)
Definition owners (project_df : DataFrame ProjectList.Row)
  : res (list string) :=
  let* s := getitem project_df ProjectList.Project_Owner in
  Ok (sorted (unique (series_dropna s))).

(** [project_df.loc[project_df["Project Owner"] == project_owner,
    "Project Name"].dropna().unique()] *)
Definition project_options (project_df : DataFrame ProjectList.Row)
  (project_owner : cell string) : res (list string) :=
  let* mask := eq_mask project_df ProjectList.Project_Owner project_owner in
  let* s := getitem (loc project_df mask) ProjectList.Project_Name in
  Ok (unique (series_dropna s)).

(** [sorted(technician_df["Technician Name"].dropna().unique())] *)
Definition technician_names (technician_df : DataFrame TechnicianList.Row)
  : res (list string) :=
  let* s := getitem technician_df TechnicianList.Technician_Name in
  Ok (sorted (unique (series_dropna s))).


(** [df.tail(n)] *)
Definition tail {R : Type} (n : nat) (df : DataFrame R) : DataFrame R :=
  {| columns := columns df;
     rows := skipn (List.length (rows df) - n) (rows df) |}.

(** "Recent Submissions" of [ppm_quick_app_no_verification.py], lines
    375-379: the frame handed to the display (before its cells are rendered
    as text), or nothing when the log is empty. *)
Definition recent_submissions (inputs_df : DataFrame Inputs.Row)
  : option (DataFrame Inputs.Row) :=
  if negb (empty inputs_df) then Some (tail 10 inputs_df) else None.

(** [ppm_quick_app.py], [main] lines 130-141: without the workbook the page
    shows an error and stops ([None]); otherwise the tables are loaded and
    cleaned. *)
Definition main_tables (file_path : option Workbook) : res (option Tables) :=
  match file_path with
  | None => Ok None
  | Some _ =>
      let* tables := QuickApp.main_load file_path in
      Ok (Some tables)
  end.

(** What [main] of [ppm_quick_app_no_verification.py] goes on to show. *)
Inductive Page : Type :=
| Stopped        (* [st.stop()] after the login form *)
| SubmitEntry    (* the data entry form *)
| SummaryExport  (* the administrator's summary and export *)
| Blank.         (* neither branch of the navigation applies *)

(** The options of the "Navigation" radio. *)
Definition tabs (is_admin : bool) : list string :=
  "Submit Entry" :: (if is_admin then ["Summary & Export"] else []).

(** [if selected_tab == "Submit Entry": ...
    elif selected_tab == "Summary & Export" and is_admin: ...] *)
Definition page_of (selected_tab : string) (is_admin : bool) : Page :=
  if (selected_tab =? "Submit Entry")%string then SubmitEntry
  else if (selected_tab =? "Summary & Export")%string && is_admin
       then SummaryExport
       else Blank.

(** [main] of [ppm_quick_app_no_verification.py] up to the choice of the
    page: login, stop when nobody is authenticated, load the workbook at
    [DATA_FILE], list the owners, follow the navigation. *)
Definition main_page (session : option SessionState) (users_file : UsersFile)
  (data_file : option Workbook) (phone_input : string) (login_clicked : bool)
  (selected_tab : string) : res (Page * SessionState * UsersFile) :=
  let* login := main_login session users_file phone_input login_clicked in
  let '((authenticated, is_admin, _), session_state, users_file') := login in
  if negb authenticated then Ok (Stopped, session_state, users_file')
  else
    let* tables := NoVerification.load_data data_file in
    let '(project_df, _, _) := tables in
    let* _ := owners project_df in
    Ok (page_of selected_tab is_admin, session_state, users_file').

Unset Implicit Arguments.
Local Open Scope list_scope.

(** * Properties *)

(** ** Auxiliary facts about cells, sums and frames *)

(** The number a quantity cell stands for when a missing one counts as 0. *)
Definition value_or_0 (c : cell Z) : Z :=
  match c with
  | Val z => z
  | _ => 0
  end.

(** Sum of a list of integers. *)
Definition Zsum (l : list Z) : Z := fold_right Z.add 0 l.

(** The row is the one for this owner and project name. *)
Definition is_project (owner name : cell string) (r : ProjectList.Row) : bool :=
  str_eq (ProjectList.project_owner r) owner
  && str_eq (ProjectList.project_name r) name.

(** The submission belongs to this owner and project name. *)
Definition is_for (owner name : cell string) (r : Inputs.Row) : bool :=
  str_eq (Inputs.project_owner r) owner && str_eq (Inputs.project_name r) name.

(** Sum of one count over the submissions of a project. *)
Definition completed_sum (inputs_df : DataFrame Inputs.Row)
  (owner name : cell string) (count : Inputs.Row -> Z) : Z :=
  Zsum (map count (filter (is_for owner name) (rows inputs_df))).

(** The whole number is one a signed 64-bit integer holds. *)
Definition in_int64 (z : Z) : Prop :=
  -9223372036854775808 <= z < 9223372036854775808.

(** The four counts of every record of the log are 64-bit integers, which is
    what makes the count columns [int64] columns. *)
Definition count_in_int64 (r : Inputs.Row) : Prop :=
  in_int64 (Inputs.indoors_completed r) /\ in_int64 (Inputs.vrf_od_completed r)
  /\ in_int64 (Inputs.dx_outdoor_completed r)
  /\ in_int64 (Inputs.ahu_completed r).

Definition counts_in_int64 (inputs_df : DataFrame Inputs.Row) : Prop :=
  Forall count_in_int64 (rows inputs_df).


(** The project row is the one of owner [o] and project [n]; the submission
    is one for owner [o] and project [n]. *)
Definition project_of (o n : string) (p : ProjectList.Row) : Prop :=
  ProjectList.project_owner p = Val o /\ ProjectList.project_name p = Val n.

Definition submission_of (o n : string) (r : Inputs.Row) : Prop :=
  Inputs.project_owner r = Val o /\ Inputs.project_name r = Val n.

Definition cell_is_dec (c : cell string) (s : string)
  : {c = Val s} + {c <> Val s} :=
  match c with
  | Val a =>
      match string_dec a s with
      | left e => left (f_equal Val e)
      | right ne => right (fun h : Val a = Val s =>
                             ne (f_equal (fun x => match x with
                                                   | Val b => b
                                                   | _ => a
                                                   end) h))
      end
  | NaN => right (fun h : NaN = Val s =>
                    eq_ind NaN (fun x => match x with
                                         | NaN => True
                                         | _ => False
                                         end) I (Val s) h)
  | PyNone => right (fun h : PyNone = Val s =>
                       eq_ind PyNone (fun x => match x with
                                               | PyNone => True
                                               | _ => False
                                               end) I (Val s) h)
  end.

Definition submission_of_dec (o n : string) (r : Inputs.Row)
  : {submission_of o n r} + {~ submission_of o n r} :=
  match cell_is_dec (Inputs.project_owner r) o,
        cell_is_dec (Inputs.project_name r) n with
  | left ho, left hn => left (conj ho hn)
  | right ho, _ => right (fun h => ho (proj1 h))
  | _, right hn => right (fun h => hn (proj2 h))
  end.

(** The submissions of the log for owner [o] and project [n], in order, and
    the sum of one of their counts as a whole number. *)
Definition submissions_of (inputs_df : DataFrame Inputs.Row) (o n : string)
  : list Inputs.Row :=
  filter (fun r => if submission_of_dec o n r then true else false)
         (rows inputs_df).

Definition submitted (inputs_df : DataFrame Inputs.Row) (o n : string)
  (count : Inputs.Row -> Z) : Z :=
  Zsum (map count (submissions_of inputs_df o n)).

(** The frame has every one of the labels. *)
Definition has_columns {R : Type} (df : DataFrame R) (ls : list string) : bool :=
  forallb (has_column df) ls.

(** The labels the quota computation reads. *)
Definition project_key_labels : list string :=
  ["Project Owner"; "Project Name"].

Definition quantity_labels : list string :=
  ["Indoors Qty"; "VRF OD Qty"; "DX Outdoor Qty"; "AHU Qty"].

Definition inputs_read_labels : list string :=
  ["Project Owner"; "Project Name"; "Indoors Completed"; "VRF OD Completed";
   "DX Outdoor Completed"; "AHU Completed"].

(** No quantity cell of the row is blank. *)
Definition quantities_present (p : ProjectList.Row) : Prop :=
  ProjectList.indoors_qty p <> NaN /\ ProjectList.vrf_od_qty p <> NaN
  /\ ProjectList.dx_outdoor_qty p <> NaN /\ ProjectList.ahu_qty p <> NaN.

(** ** Scenario data: the project of the specification's examples *)

Definition acme_tower : ProjectList.Row :=
  ProjectList.mkRow (Val "Acme") (Val "Tower A") (Val "Dubai")
    (Val 10) (Val 5) (Val 0) (Val 2).

Definition acme_projects : DataFrame ProjectList.Row :=
  {| columns := ProjectList.labels; rows := [acme_tower] |}.

(** The day's record of the scenario: 4 indoor units and 1 VRF unit by Ali and
    Omar. *)
Definition acme_day1 : Inputs.Row :=
  new_row (Val "Acme") (Val "Tower A") 739000 (Val "Dubai") 4 1 0 0
    ["Ali"; "Omar"] [].

(** The log with that record, as the sheet "Inputs" holds it. *)
Definition acme_log : DataFrame Inputs.Row :=
  Inputs.excel_frame {| columns := Inputs.labels; rows := [acme_day1] |}.

(** A project whose "Indoors Qty" cell is blank in the sheet. *)
Definition tower_b : ProjectList.Row :=
  ProjectList.mkRow (Val "Acme") (Val "Tower B") (Val "Dubai")
    NaN (Val 5) (Val 0) (Val 2).

Definition tower_b_projects : DataFrame ProjectList.Row :=
  {| columns := ProjectList.labels; rows := [tower_b] |}.

Definition acme_technicians : DataFrame TechnicianList.Row :=
  {| columns := ["Technician Name"];
     rows := [TechnicianList.mkRow (Val "Ali");
              TechnicianList.mkRow (Val "Omar")] |}.

(** The workbook before the first submission: no sheet "Inputs" yet. *)
Definition acme_workbook : Workbook :=
  {| sheet_Project_List := Some acme_projects;
     sheet_Technician_List := Some acme_technicians;
     sheet_Inputs := None |}.

(** A record with 11 indoor units, one more than the 10 that remain. *)
Definition over_quota_row : Inputs.Row :=
  new_row (Val "Acme") (Val "Tower A") 739000 (Val "Dubai") 11 0 0 0
    ["Ali"] [].




(** The workbook with its sheet "Inputs" replaced by the log as the sheet
    keeps it. *)
Definition with_Inputs (xls : Workbook) (inputs_df : DataFrame Inputs.Row)
  : Workbook :=
  {| sheet_Project_List := sheet_Project_List xls;
     sheet_Technician_List := sheet_Technician_List xls;
     sheet_Inputs := Some (Inputs.excel_frame inputs_df) |}.

(** A project sheet with a row whose "Project Owner" cell is blank. *)
Definition ownerless_row : ProjectList.Row :=
  ProjectList.mkRow NaN (Val "Depot") (Val "Sharjah")
    (Val 3) (Val 0) (Val 0) (Val 0).

Definition draft_projects : DataFrame ProjectList.Row :=
  {| columns := ProjectList.labels; rows := [acme_tower; ownerless_row] |}.

Definition draft_workbook : Workbook :=
  {| sheet_Project_List := Some draft_projects;
     sheet_Technician_List := Some acme_technicians;
     sheet_Inputs := None |}.

(** The row names its owner and its project. *)
Definition has_identity (r : ProjectList.Row) : bool :=
  negb (isna (ProjectList.project_owner r))
  && negb (isna (ProjectList.project_name r)).

(** The row names its technician. *)
Definition has_name (r : TechnicianList.Row) : bool :=
  negb (isna (TechnicianList.technician_name r)).

(** The label is not a legacy one. *)
Definition kept (c : string) : bool := negb (endswith c "Compelet").

(** The submissions frame both [load_data] functions return for a workbook. *)
Definition loaded_inputs (xls : Workbook) : DataFrame Inputs.Row :=
  match sheet_Inputs xls with
  | Some df => {| columns := filter kept (columns df); rows := rows df |}
  | None => empty_inputs
  end.

(** The session is in the state LoggedOut. *)
Definition logged_out (session : option SessionState) : Prop :=
  match session with
  | None => True
  | Some s => logged_in s = false
  end.

(** The registry row is the one of this phone. *)
Definition has_phone (p : string) (r : Users.Row) : bool :=
  str_eq (Users.phone r) (Val p).

(** The record a first login creates. *)
Definition registered (p : string) : Users.Row :=
  Users.mkRow (Val p) (Val "") (Val "user").

(** The text consists of whitespace only (or is empty). *)
Definition blank (s : string) : bool :=
  forallb isspace (list_ascii_of_string s).

(** A registry with one administrator. *)
Definition office_registry : DataFrame Users.Row :=
  {| columns := Users.labels;
     rows := [Users.mkRow (Val "+97150000001") (Val "Huda") (Val "Admin")] |}.

(** The total the summary reads from a project row: [row.get(label, 0)],
    with anything missing counted as 0. *)
Definition quota (project_df : DataFrame ProjectList.Row)
  (p : ProjectList.Row) (c : Column ProjectList.Row (cell Z)) : Z :=
  value_or_0 (row_get project_df p c (Val 0)).

(** The summary row [s] is the one of the project row [p]: owner and name
    copied, the totals read from [p], the completed numbers the sums over the
    submissions of the project as 64-bit integers, not clamped. *)
Definition summary_of (project_df : DataFrame ProjectList.Row)
  (inputs_df : DataFrame Inputs.Row) (p : ProjectList.Row) (s : SummaryRow)
  : Prop :=
  let done count :=
    int64 (completed_sum inputs_df (ProjectList.project_owner p)
             (ProjectList.project_name p) count) in
  Project_Owner s = ProjectList.project_owner p
  /\ Project_Name s = ProjectList.project_name p
  /\ Indoors_Completed s = done Inputs.indoors_completed
  /\ VRF_OD_Completed s = done Inputs.vrf_od_completed
  /\ DX_Outdoor_Completed s = done Inputs.dx_outdoor_completed
  /\ AHU_Completed s = done Inputs.ahu_completed
  /\ Indoors_Total s = quota project_df p ProjectList.Indoors_Qty
  /\ VRF_OD_Total s = quota project_df p ProjectList.VRF_OD_Qty
  /\ DX_Outdoor_Total s = quota project_df p ProjectList.DX_Outdoor_Qty
  /\ AHU_Total s = quota project_df p ProjectList.AHU_Qty.

(** The four sums over the submissions of (o, n) are numbers a signed 64-bit
    integer holds. *)
Definition sums_in_int64 (inputs_df : DataFrame Inputs.Row) (o n : string)
  : Prop :=
  in_int64 (submitted inputs_df o n Inputs.indoors_completed)
  /\ in_int64 (submitted inputs_df o n Inputs.vrf_od_completed)
  /\ in_int64 (submitted inputs_df o n Inputs.dx_outdoor_completed)
  /\ in_int64 (submitted inputs_df o n Inputs.ahu_completed).






(** Three days on which more indoor units were reported than the 10 planned:
    4, 4 and 4. *)
Definition busy_log : DataFrame Inputs.Row :=
  Inputs.excel_frame
    {| columns := Inputs.labels; rows := [acme_day1; acme_day1; acme_day1] |}.

(** A sheet "Inputs" from an early version of the workbook, with a misspelt
    count column next to the fourteen current ones. *)
Definition legacy_inputs : DataFrame Inputs.Row :=
  {| columns := "Date" :: "Indoors Compelet" :: tl Inputs.labels;
     rows := rows acme_log |}.

Definition legacy_workbook : Workbook :=
  {| sheet_Project_List := Some acme_projects;
     sheet_Technician_List := Some acme_technicians;
     sheet_Inputs := Some legacy_inputs |}.






(** The strings other than "" among the cells. *)
Definition names_in (cells : list (cell string)) : list string :=
  filter (fun v => negb (v =? "")%string) (series_dropna cells).

(** The technicians and the helpers a record names. *)
Definition technicians_of (r : Inputs.Row) : list string :=
  names_in [Inputs.technician_name_1 r; Inputs.technician_name_2 r;
            Inputs.technician_name_3 r].

Definition helpers_of (r : Inputs.Row) : list string :=
  names_in [Inputs.helper_name_1 r; Inputs.helper_name_2 r;
            Inputs.helper_name_3 r].

(** The registry a users file stands for, and the rows it holds. *)
Definition registry_rows (f : UsersFile) : list Users.Row :=
  rows (load_users f).

(** A project list of two owners, not in alphabetical order, one of them
    with two projects and one row without a project name. *)
Definition zenith_mall : ProjectList.Row :=
  ProjectList.mkRow (Val "Zenith") (Val "Mall") (Val "Ajman")
    (Val 8) (Val 2) (Val 1) (Val 0).

Definition zenith_clinic : ProjectList.Row :=
  ProjectList.mkRow (Val "Zenith") (Val "Clinic") (Val "Dubai")
    (Val 4) (Val 0) (Val 0) (Val 1).

Definition zenith_unnamed : ProjectList.Row :=
  ProjectList.mkRow (Val "Zenith") NaN (Val "Dubai")
    (Val 1) (Val 0) (Val 0) (Val 0).

Definition city_projects : DataFrame ProjectList.Row :=
  {| columns := ProjectList.labels;
     rows := [zenith_mall; acme_tower; zenith_clinic; zenith_unnamed] |}.









(** In Python's order of strings. *)
Definition str_le (a b : string) : Prop := String.leb a b = true.

(** A registry in which the role of one phone was left blank. *)
Definition patchy_registry : DataFrame Users.Row :=
  {| columns := Users.labels;
     rows := [Users.mkRow (Val "+97150000002") (Val "Sami") NaN] |}.

(** A project sheet that has no column "Indoors Qty". *)
Definition outdoor_projects : DataFrame ProjectList.Row :=
  {| columns := ["Project Owner"; "Project Name"; "Emirate"; "VRF OD Qty";
                 "DX Outdoor Qty"; "AHU Qty"];
     rows := [acme_tower] |}.

(** Twelve records, numbered by their indoor count. *)
Definition twelve_days : list Inputs.Row :=
  map (fun k => new_row (Val "Acme") (Val "Tower A") (739000 + k)
                  (Val "Dubai") k 0 0 0 ["Ali"] [])
      [1; 2; 3; 4; 5; 6; 7; 8; 9; 10; 11; 12].

(** The summary can read the quantity: the column is absent, or the cell is
    not blank. *)
Definition readable (project_df : DataFrame ProjectList.Row)
  (p : ProjectList.Row) (c : Column ProjectList.Row (cell Z)) : Prop :=
  has_column project_df (label c) = false \/ field c p <> NaN.

Definition quantities_readable (project_df : DataFrame ProjectList.Row)
  (p : ProjectList.Row) : Prop :=
  readable project_df p ProjectList.Indoors_Qty
  /\ readable project_df p ProjectList.VRF_OD_Qty
  /\ readable project_df p ProjectList.DX_Outdoor_Qty
  /\ readable project_df p ProjectList.AHU_Qty.



Lemma int64_small (z : Z) : in_int64 z -> int64 z = z.
Proof.
  unfold in_int64, int64. intros H. rewrite Z.mod_small; lia.
Qed.

Lemma int64_add_l (a b : Z) : int64 (int64 a + b) = int64 (a + b).
Proof.
  unfold int64. f_equal.
  replace ((a + 9223372036854775808) mod 18446744073709551616
           - 9223372036854775808 + b + 9223372036854775808)
    with ((a + 9223372036854775808) mod 18446744073709551616 + b) by lia.
  rewrite Zplus_mod_idemp_l. f_equal. lia.
Qed.

Lemma fold_left_int64 (s : list Z) (a : Z) :
  fold_left (fun acc z => int64 (acc + z)) s (int64 a) = int64 (a + Zsum s).
Proof.
  unfold Zsum. revert a.
  induction s as [|z s IH]; intros a; cbn [fold_left fold_right].
  - f_equal. lia.
  - rewrite int64_add_l, IH. f_equal. lia.
Qed.

Lemma series_sum_Zsum (s : list Z) : series_sum s = int64 (Zsum s).
Proof.
  unfold series_sum. change 0 with (int64 0) at 1.
  rewrite fold_left_int64. reflexivity.
Qed.

Lemma filter_all {A : Type} (f : A -> bool) (l : list A) :
  (forall x, In x l -> f x = true) -> filter f l = l.
Proof.
  induction l as [|x l IH]; intros H; simpl; [reflexivity|].
  rewrite (H x (or_introl eq_refl)), IH; [reflexivity|].
  intros y Hy. apply H. right. exact Hy.
Qed.

Lemma filter_nil_all {A : Type} (f : A -> bool) (l : list A) :
  filter f l = [] -> forall x, In x l -> f x = false.
Proof.
  intros E x Hx. destruct (f x) eqn:Fx; [|reflexivity].
  assert (Hin : In x (filter f l)) by (apply filter_In; split; assumption).
  rewrite E in Hin. destruct Hin.
Qed.


Lemma str_eq_Val (c : cell string) (v : string) :
  str_eq c (Val v) = true <-> c = Val v.
Proof.
  destruct c as [| |a]; cbn [str_eq]; try (split; discriminate).
  rewrite String.eqb_eq. split; congruence.
Qed.

Lemma is_project_Val o n (r : ProjectList.Row) :
  is_project (Val o) (Val n) r = true
  <-> ProjectList.project_owner r = Val o /\ ProjectList.project_name r = Val n.
Proof.
  unfold is_project. now rewrite andb_true_iff, !str_eq_Val.
Qed.

Lemma is_for_Val o n (r : Inputs.Row) :
  is_for (Val o) (Val n) r = true <-> submission_of o n r.
Proof.
  unfold is_for, submission_of. now rewrite andb_true_iff, !str_eq_Val.
Qed.

Lemma is_for_submission_of o n (r : Inputs.Row) :
  is_for (Val o) (Val n) r = if submission_of_dec o n r then true else false.
Proof.
  destruct (submission_of_dec o n r) as [H|H].
  - now apply is_for_Val.
  - destruct (is_for (Val o) (Val n) r) eqn:E; [|reflexivity].
    exfalso. now apply H, is_for_Val.
Qed.

Lemma completed_sum_submitted inputs_df o n count :
  completed_sum inputs_df (Val o) (Val n) count = submitted inputs_df o n count.
Proof.
  unfold completed_sum, submitted, submissions_of. do 2 f_equal.
  apply filter_ext. intros r. apply is_for_submission_of.
Qed.

Lemma has_columns_cons {R : Type} (df : DataFrame R) l ls :
  has_columns df (l :: ls) = true ->
  has_column df l = true /\ has_columns df ls = true.
Proof. unfold has_columns; simpl. apply andb_true_iff. Qed.

(** Turn a hypothesis on a list of labels into one hypothesis per label. *)
Ltac split_columns H :=
  simpl app in H; repeat (apply has_columns_cons in H as [? H]).

Lemma loc_eq2_ok {R : Type} (df : DataFrame R) c1 v1 c2 v2 :
  has_column df (label c1) = true ->
  has_column df (label c2) = true ->
  loc_eq2 df c1 v1 c2 v2
  = Ok (loc df (fun r => str_eq (field c1 r) v1 && str_eq (field c2 r) v2)).
Proof.
  intros H1 H2. unfold loc_eq2, eq_mask. rewrite H1, H2. reflexivity.
Qed.

Lemma completed_ok (frame : DataFrame Inputs.Row) c :
  has_column frame (label c) = true ->
  completed frame c = Ok (int64 (Zsum (map (field c) (rows frame)))).
Proof.
  intros H. unfold completed, getitem. rewrite H. cbn [bind].
  rewrite series_sum_Zsum. reflexivity.
Qed.

Lemma int_or_0 (x : cell Z) : x <> NaN -> int (or_0 x) = Ok (value_or_0 x).
Proof.
  intros H. destruct x as [| |z]; [congruence|reflexivity|].
  unfold or_0; simpl. destruct (Z.eqb_spec z 0); simpl; congruence.
Qed.

(** ** Remaining quotas *)

Lemma project_match_ok project_df owner name :
  has_column project_df "Project Owner" = true ->
  has_column project_df "Project Name" = true ->
  project_match project_df owner name
  = Ok (loc project_df (is_project owner name)).
Proof.
  intros Ho Hn. unfold project_match. rewrite loc_eq2_ok by assumption.
  reflexivity.
Qed.

Lemma inputs_match_ok (inputs_df : DataFrame Inputs.Row) owner name :
  has_column inputs_df "Project Owner" = true ->
  has_column inputs_df "Project Name" = true ->
  loc_eq2 inputs_df Inputs.Project_Owner owner Inputs.Project_Name name
  = Ok (loc inputs_df (is_for owner name)).
Proof.
  intros Ho Hn. rewrite loc_eq2_ok by assumption. reflexivity.
Qed.


Lemma total_ok (project_row : DataFrame ProjectList.Row) c p rest :
  rows project_row = p :: rest ->
  has_column project_row (label c) = true ->
  field c p <> NaN ->
  total project_row c = Ok (value_or_0 (field c p)).
Proof.
  intros Hr Hc Hp. unfold total, iloc0. rewrite Hr, Hc. simpl.
  apply int_or_0, Hp.
Qed.

Lemma empty_false {R : Type} (df : DataFrame R) l r rest :
  has_column df l = true -> rows df = r :: rest -> empty df = false.
Proof.
  unfold has_column, empty. intros Hc Hr. rewrite Hr.
  destruct (columns df); [discriminate|reflexivity].
Qed.

Lemma remaining_match project_df inputs_df owner name p rest :
  has_columns project_df (project_key_labels ++ quantity_labels) = true ->
  has_columns inputs_df inputs_read_labels = true ->
  truthy_str name = true ->
  filter (is_project owner name) (rows project_df) = p :: rest ->
  quantities_present p ->
  remaining project_df inputs_df owner name
  = Ok {| indoor := Z.max (value_or_0 (ProjectList.indoors_qty p)
                           - int64 (completed_sum inputs_df owner name
                                    Inputs.indoors_completed)) 0;
          vrf := Z.max (value_or_0 (ProjectList.vrf_od_qty p)
                        - int64 (completed_sum inputs_df owner name
                                    Inputs.vrf_od_completed)) 0;
          dx := Z.max (value_or_0 (ProjectList.dx_outdoor_qty p)
                       - int64 (completed_sum inputs_df owner name
                                    Inputs.dx_outdoor_completed)) 0;
          ahu := Z.max (value_or_0 (ProjectList.ahu_qty p)
                        - int64 (completed_sum inputs_df owner name
                                    Inputs.ahu_completed)) 0 |}.
Proof.
  intros Hp Hi Ht Hm (Q1 & Q2 & Q3 & Q4). unfold remaining. rewrite Ht.
  split_columns Hp. split_columns Hi.
  rewrite project_match_ok by assumption. cbn [bind].
  set (project_row := loc project_df (is_project owner name)).
  assert (Hrows : rows project_row = p :: rest) by exact Hm.
  rewrite (@empty_false _ project_row "Project Owner" p rest) by assumption.
  cbn [negb].
  rewrite (@total_ok project_row ProjectList.Indoors_Qty p rest) by assumption.
  cbn [bind].
  rewrite (@total_ok project_row ProjectList.VRF_OD_Qty p rest) by assumption.
  cbn [bind].
  rewrite (@total_ok project_row ProjectList.DX_Outdoor_Qty p rest)
    by assumption.
  cbn [bind].
  rewrite (@total_ok project_row ProjectList.AHU_Qty p rest) by assumption.
  cbn [bind].
  rewrite inputs_match_ok by assumption. cbn [bind].
  rewrite !completed_ok by assumption. cbn [bind].
  reflexivity.
Qed.

Lemma filter_first (A : Type) (f : A -> bool) (earlier : list A) (p : A)
  (later : list A) :
  f p = true -> (forall e, In e earlier -> f e = false) ->
  filter f (earlier ++ p :: later) = p :: filter f later.
Proof.
  intros Hp He. induction earlier as [|e earlier IH]; cbn [app filter].
  - now rewrite Hp.
  - rewrite (He e) by (left; reflexivity). apply IH.
    intros x Hx. apply He. right. exact Hx.
Qed.

Lemma not_true_false (b : bool) : (b = true -> False) -> b = false.
Proof. destruct b; [intros H; exfalso; now apply H | reflexivity]. Qed.





(** ** A blank quantity cell *)

Lemma total_NaN (project_row : DataFrame ProjectList.Row) c p rest :
  rows project_row = p :: rest ->
  has_column project_row (label c) = true ->
  field c p = NaN ->
  total project_row c = Raise ValueError.
Proof.
  intros Hr Hc Hp. unfold total, iloc0. rewrite Hr, Hc, Hp. reflexivity.
Qed.

Lemma cell_NaN_dec {A : Type} (c : cell A) : {c = NaN} + {c <> NaN}.
Proof. destruct c; [left; reflexivity | right; discriminate ..]. Qed.

(** C3.  The quota computation does not evaluate when a quantity cell of the
    selected project is blank: [NaN or 0] is [NaN], and [int(NaN)] raises
    [ValueError]. *)
Theorem remaining_raises_on_blank_quantity project_df inputs_df owner name
  p rest :
  has_columns project_df (project_key_labels ++ quantity_labels) = true ->
  truthy_str name = true ->
  filter (is_project owner name) (rows project_df) = p :: rest ->
  ~ quantities_present p ->
  remaining project_df inputs_df owner name = Raise ValueError.
Proof.
  intros Hp Ht Hm Hq. unfold remaining. rewrite Ht.
  split_columns Hp.
  rewrite project_match_ok by assumption. cbn [bind].
  set (project_row := loc project_df (is_project owner name)).
  assert (Hrows : rows project_row = p :: rest) by exact Hm.
  rewrite (@empty_false _ project_row "Project Owner" p rest) by assumption.
  cbn [negb].
  destruct (cell_NaN_dec (ProjectList.indoors_qty p)) as [E1|N1].
  { rewrite (@total_NaN project_row ProjectList.Indoors_Qty p rest)
      by assumption. reflexivity. }
  rewrite (@total_ok project_row ProjectList.Indoors_Qty p rest) by assumption.
  cbn [bind].
  destruct (cell_NaN_dec (ProjectList.vrf_od_qty p)) as [E2|N2].
  { rewrite (@total_NaN project_row ProjectList.VRF_OD_Qty p rest)
      by assumption. reflexivity. }
  rewrite (@total_ok project_row ProjectList.VRF_OD_Qty p rest) by assumption.
  cbn [bind].
  destruct (cell_NaN_dec (ProjectList.dx_outdoor_qty p)) as [E3|N3].
  { rewrite (@total_NaN project_row ProjectList.DX_Outdoor_Qty p rest)
      by assumption. reflexivity. }
  rewrite (@total_ok project_row ProjectList.DX_Outdoor_Qty p rest)
    by assumption.
  cbn [bind].
  destruct (cell_NaN_dec (ProjectList.ahu_qty p)) as [E4|N4].
  { rewrite (@total_NaN project_row ProjectList.AHU_Qty p rest)
      by assumption. reflexivity. }
  exfalso. apply Hq. unfold quantities_present. auto.
Qed.

(** When the sheet has no column "Indoors Qty" at all, the lookup of the label
    raises [KeyError]. *)
Lemma remaining_raises_without_quantity_column :
  remaining {| columns := ["Project Owner"; "Project Name"; "Emirate"];
               rows := [acme_tower] |}
    acme_log (Val "Acme") (Val "Tower A")
  = Raise KeyError.
Proof. reflexivity. Qed.

(** The project "Tower B" has a blank "Indoors Qty": selecting it makes the
    page fail with [ValueError], while a cell holding [None] would have been
    read as 0. *)
Lemma remaining_tower_b_raises :
  remaining tower_b_projects acme_log (Val "Acme") (Val "Tower B")
  = Raise ValueError
  /\ int (or_0 PyNone) = Ok 0.
Proof.
  split; [|reflexivity].
  apply (@remaining_raises_on_blank_quantity tower_b_projects acme_log
           (Val "Acme") (Val "Tower B") tower_b []);
    try reflexivity.
  unfold quantities_present; simpl. intros [H _]. apply H; reflexivity.
Defined.

(** ** Submitting a record *)

Lemma rows_concat_row {R : Type} (df : DataFrame R) ls (r : R) :
  rows (concat_row df ls r) = rows df ++ [r].
Proof. reflexivity. Qed.

Lemma submit_clicked_ok inputs_df owner name today emirate i v d a techs
  helpers xls :
  let log' :=
    concat_row inputs_df Inputs.labels
      (new_row owner name today emirate i v d a techs helpers) in
  submit inputs_df owner name today emirate i v d a techs helpers
    QuickApp.save_submission (Some xls) true
  = Ok (log', Some (with_Inputs xls log'))
  /\ submit inputs_df owner name today emirate i v d a techs helpers
       NoVerification.save_inputs (Some xls) true
     = Ok (log', Some (with_Inputs xls log')).
Proof. split; reflexivity. Qed.






(** C5.  Appending a record is a concatenation: the rows of the result are
    the rows of the log followed by the record, so the log grows by one row,
    the record is the row at index [len(S)], the earlier rows come first,
    unchanged and in their order, and the earlier labels keep their places.
    The log that the submit step produces is this concatenation with the
    record it built. *)
Theorem append_is_concatenation (S : DataFrame Inputs.Row) (r : Inputs.Row) :
  let S' := concat_row S Inputs.labels r in
  rows S' = rows S ++ [r]
  /\ List.length (rows S') = Datatypes.S (List.length (rows S))
  /\ nth_error (rows S') (List.length (rows S)) = Some r
  /\ (forall i x, nth_error (rows S) i = Some x ->
                  nth_error (rows S') i = Some x)
  /\ firstn (List.length (rows S)) (rows S') = rows S
  /\ firstn (List.length (columns S)) (columns S') = columns S
  /\ forall owner name today emirate i v d a techs helpers xls,
       r = new_row owner name today emirate i v d a techs helpers ->
       submit S owner name today emirate i v d a techs helpers
         QuickApp.save_submission (Some xls) true
       = Ok (S', Some (with_Inputs xls S'))
       /\ submit S owner name today emirate i v d a techs helpers
            NoVerification.save_inputs (Some xls) true
          = Ok (S', Some (with_Inputs xls S')).
Proof.
  intros S'. subst S'. rewrite rows_concat_row.
  split; [reflexivity|].
  split; [rewrite length_app; simpl; lia|].
  split; [rewrite nth_error_app2, Nat.sub_diag by lia; reflexivity|].
  split.
  { intros i x Hi. rewrite nth_error_app1; [exact Hi|].
    apply nth_error_Some. congruence. }
  split; [rewrite firstn_app, Nat.sub_diag, firstn_all, app_nil_r; reflexivity|].
  split.
  - unfold concat_row; cbn [columns].
    rewrite firstn_app, Nat.sub_diag, firstn_all, app_nil_r; reflexivity.
  - intros owner name today emirate i v d a techs helpers xls ->.
    apply submit_clicked_ok.
Qed.

(** ** Loading the workbook *)

Lemma existsb_eqb_filter (f : string -> bool) (l : list string) (c : string) :
  In c l -> existsb (String.eqb c) (filter f l) = f c.
Proof.
  intros Hc. destruct (f c) eqn:Fc.
  - apply existsb_exists. exists c. split; [|apply String.eqb_refl].
    apply filter_In. split; assumption.
  - destruct (existsb (String.eqb c) (filter f l)) eqn:E; [|reflexivity].
    apply existsb_exists in E as (x & Hx & Hcx).
    apply String.eqb_eq in Hcx. subst x.
    apply filter_In in Hx as [_ Hx]. congruence.
Qed.

(** What the [try] block of [load_data] yields for a sheet that is there: the
    rows as they are, under the labels that are not legacy ones. *)
Lemma read_inputs_present xls df :
  sheet_Inputs xls = Some df ->
  read_inputs xls = Ok {| columns := filter kept (columns df); rows := rows df |}.
Proof.
  intros Hs. unfold read_inputs. rewrite Hs. cbn [read_excel bind].
  destruct (filter (fun c => endswith c "Compelet") (columns df)) eqn:E.
  - rewrite filter_all.
    + destruct df; reflexivity.
    + intros c Hc. unfold kept. now rewrite (filter_nil_all _ _ E c Hc).
  - rewrite <- E. unfold drop_columns. f_equal. f_equal.
    apply filter_ext_in. intros c Hc. unfold kept.
    now rewrite existsb_eqb_filter.
Qed.

Lemma read_inputs_absent xls :
  sheet_Inputs xls = None -> read_inputs xls = Raise ValueError.
Proof. intros Hs. unfold read_inputs. rewrite Hs. reflexivity. Qed.

Lemma try_read_inputs xls handled :
  handled ValueError = true ->
  try_except (read_inputs xls) handled (Ok empty_inputs)
  = Ok (loaded_inputs xls).
Proof.
  intros Hh. unfold loaded_inputs.
  destruct (sheet_Inputs xls) as [df|] eqn:Hs.
  - rewrite (read_inputs_present xls df Hs). reflexivity.
  - rewrite (read_inputs_absent xls Hs). simpl. now rewrite Hh.
Qed.

Lemma dropna_projects_ok (project_df : DataFrame ProjectList.Row) :
  has_columns project_df project_key_labels = true ->
  dropna project_df [ProjectList.Project_Owner; ProjectList.Project_Name]
  = Ok (loc project_df has_identity).
Proof.
  intros H. unfold dropna.
  apply has_columns_cons in H as [Ho H].
  apply has_columns_cons in H as [Hn _].
  cbn [forallb label ProjectList.Project_Owner ProjectList.Project_Name].
  rewrite Ho, Hn. cbn [andb]. f_equal. unfold loc. f_equal.
  apply filter_ext. intros r. unfold has_identity. simpl.
  now rewrite andb_true_r.
Qed.

Lemma dropna_technicians_ok (technician_df : DataFrame TechnicianList.Row) :
  has_column technician_df "Technician Name" = true ->
  dropna technician_df [TechnicianList.Technician_Name]
  = Ok (loc technician_df has_name).
Proof.
  intros H. unfold dropna.
  cbn [forallb label TechnicianList.Technician_Name].
  rewrite H. cbn [andb]. f_equal. unfold loc. f_equal.
  apply filter_ext. intros r. unfold has_name. simpl.
  now rewrite andb_true_r.
Qed.

Lemma QuickApp_load_data_ok xls project_df technician_df :
  sheet_Project_List xls = Some project_df ->
  sheet_Technician_List xls = Some technician_df ->
  QuickApp.load_data (Some xls)
  = Ok (project_df, technician_df, loaded_inputs xls).
Proof.
  intros Hp Ht. unfold QuickApp.load_data. cbn [ExcelFile bind].
  rewrite Hp, Ht. cbn [read_excel bind].
  rewrite try_read_inputs by reflexivity. reflexivity.
Qed.

Lemma NoVerification_load_data_ok xls project_df technician_df :
  sheet_Project_List xls = Some project_df ->
  sheet_Technician_List xls = Some technician_df ->
  has_columns project_df project_key_labels = true ->
  has_column technician_df "Technician Name" = true ->
  NoVerification.load_data (Some xls)
  = Ok (loc project_df has_identity, loc technician_df has_name,
        loaded_inputs xls).
Proof.
  intros Hp Ht Hc Hn. unfold NoVerification.load_data. cbn [ExcelFile bind].
  rewrite Hp, Ht. cbn [read_excel bind].
  rewrite try_read_inputs by reflexivity. cbn [bind].
  rewrite dropna_projects_ok, dropna_technicians_ok by assumption.
  reflexivity.
Qed.

Lemma QuickApp_main_load_ok xls project_df technician_df :
  sheet_Project_List xls = Some project_df ->
  sheet_Technician_List xls = Some technician_df ->
  has_columns project_df project_key_labels = true ->
  has_column technician_df "Technician Name" = true ->
  QuickApp.main_load (Some xls)
  = Ok (loc project_df has_identity, loc technician_df has_name,
        loaded_inputs xls).
Proof.
  intros Hp Ht Hc Hn. unfold QuickApp.main_load.
  rewrite (QuickApp_load_data_ok xls project_df technician_df Hp Ht).
  cbn [bind].
  rewrite dropna_projects_ok, dropna_technicians_ok by assumption.
  reflexivity.
Qed.

(** C6.  For a workbook with its two reference sheets, [load_data] of either
    file returns a submissions frame none of whose labels ends with
    "Compelet"; a sheet "Inputs" that is there keeps its rows and its other
    labels, and when the sheet is absent the frame is empty and has exactly
    the fourteen labels of the fixed schema.  (The login variant's
    [load_data] also needs the identity columns it cleans.) *)
Theorem load_data_inputs_schema xls project_df technician_df :
  sheet_Project_List xls = Some project_df ->
  sheet_Technician_List xls = Some technician_df ->
  exists inputs_df,
    QuickApp.load_data (Some xls) = Ok (project_df, technician_df, inputs_df)
    /\ (has_columns project_df project_key_labels = true ->
        has_column technician_df "Technician Name" = true ->
        exists p t, NoVerification.load_data (Some xls) = Ok (p, t, inputs_df))
    /\ (forall c, In c (columns inputs_df) -> endswith c "Compelet" = false)
    /\ (forall df, sheet_Inputs xls = Some df ->
        rows inputs_df = rows df
        /\ columns inputs_df = filter kept (columns df))
    /\ (sheet_Inputs xls = None ->
        rows inputs_df = []
        /\ columns inputs_df
           = ["Date"; "Project Owner"; "Project Name"; "Emirate";
              "Indoors Completed"; "VRF OD Completed"; "DX Outdoor Completed";
              "AHU Completed"; "Technician name 1"; "Technician name 2";
              "Technician name 3"; "Helper name 1"; "Helper name 2";
              "Helper name 3"]
        /\ List.length (columns inputs_df) = 14%nat).
Proof.
  intros Hp Ht. exists (loaded_inputs xls).
  split; [apply QuickApp_load_data_ok; assumption|].
  split.
  { intros Hc Hn. eexists; eexists.
    apply NoVerification_load_data_ok; eassumption. }
  unfold loaded_inputs. destruct (sheet_Inputs xls) as [df|].
  - split.
    { cbn [columns]. intros c Hc. apply filter_In in Hc as [_ Hc].
      unfold kept in Hc. now apply negb_true_iff in Hc. }
    split; [|discriminate].
    intros df' E. injection E as <-. split; reflexivity.
  - split.
    { intros c Hc. cbn in Hc.
      repeat (destruct Hc as [<-|Hc]; [reflexivity|]). destruct Hc. }
    split; [discriminate|].
    intros _. repeat split; reflexivity.
Qed.

(** A workbook whose sheet "Inputs" still carries a misspelt legacy column:
    the column is gone after loading, in both files; and the workbook without
    the sheet loads as the empty log with its fourteen labels. *)
Lemma load_data_drops_legacy_column :
  (exists p t inputs_df,
     QuickApp.load_data (Some legacy_workbook)
     = Ok (acme_projects, acme_technicians, inputs_df)
     /\ NoVerification.load_data (Some legacy_workbook)
        = Ok (p, t, inputs_df)
     /\ columns inputs_df = Inputs.labels
     /\ rows inputs_df = rows acme_log)
  /\ (exists inputs_df,
        QuickApp.load_data (Some acme_workbook)
        = Ok (acme_projects, acme_technicians, inputs_df)
        /\ rows inputs_df = []
        /\ List.length (columns inputs_df) = 14%nat).
Proof.
  split.
  - destruct (load_data_inputs_schema legacy_workbook acme_projects
                acme_technicians eq_refl eq_refl)
      as (inputs_df & Hq & Hn & _ & Hsome & _).
    destruct (Hn eq_refl eq_refl) as (p & t & Hpt).
    destruct (Hsome legacy_inputs eq_refl) as [Hr Hc].
    exists p, t, inputs_df. split; [exact Hq|]. split; [exact Hpt|].
    split; [rewrite Hc; reflexivity | rewrite Hr; reflexivity].
  - destruct (load_data_inputs_schema acme_workbook acme_projects
                acme_technicians eq_refl eq_refl)
      as (inputs_df & Hq & _ & _ & _ & Hnone).
    destruct (Hnone eq_refl) as (Hr & _ & Hl).
    exists inputs_df. split; [exact Hq|]. split; assumption.
Defined.

(** ** Rows without identity *)

(** C7, as the code has it.  For a workbook with its two reference sheets,
    carrying the identity columns: the login variant's [load_data] returns
    the project rows that name both owner and project and the technician rows
    that name the technician, and no other row; the base variant's
    [load_data] returns both sheets as they are, and its [main] drops the
    same rows right after loading. *)
Theorem identity_rows_dropped xls project_df technician_df :
  sheet_Project_List xls = Some project_df ->
  sheet_Technician_List xls = Some technician_df ->
  has_columns project_df project_key_labels = true ->
  has_column technician_df "Technician Name" = true ->
  exists p t inputs_df,
    NoVerification.load_data (Some xls) = Ok (p, t, inputs_df)
    /\ QuickApp.main_load (Some xls) = Ok (p, t, inputs_df)
    /\ QuickApp.load_data (Some xls)
       = Ok (project_df, technician_df, inputs_df)
    /\ rows p = filter has_identity (rows project_df)
    /\ rows t = filter has_name (rows technician_df)
    /\ (forall r, In r (rows p) ->
        isna (ProjectList.project_owner r) = false
        /\ isna (ProjectList.project_name r) = false)
    /\ (forall r, In r (rows t) ->
        isna (TechnicianList.technician_name r) = false).
Proof.
  intros Hp Ht Hc Hn.
  exists (loc project_df has_identity), (loc technician_df has_name),
    (loaded_inputs xls).
  split; [apply NoVerification_load_data_ok; assumption|].
  split; [apply QuickApp_main_load_ok; assumption|].
  split; [apply QuickApp_load_data_ok; assumption|].
  split; [reflexivity|]. split; [reflexivity|]. split.
  - intros r Hr. apply filter_In in Hr as [_ Hr].
    unfold has_identity in Hr. apply andb_true_iff in Hr as [Ho Hnm].
    apply negb_true_iff in Ho, Hnm. split; assumption.
  - intros r Hr. apply filter_In in Hr as [_ Hr].
    unfold has_name in Hr. now apply negb_true_iff in Hr.
Qed.

(** The draft workbook has a project row without owner: the login variant
    and the base variant's [main] keep only the other row. *)
Lemma draft_workbook_cleaned :
  exists p t inputs_df,
    NoVerification.load_data (Some draft_workbook) = Ok (p, t, inputs_df)
    /\ QuickApp.main_load (Some draft_workbook) = Ok (p, t, inputs_df)
    /\ rows p = [acme_tower].
Proof.
  destruct (identity_rows_dropped draft_workbook draft_projects
              acme_technicians eq_refl eq_refl eq_refl eq_refl)
    as (p & t & i & H1 & H2 & _ & Hr & _).
  exists p, t, i. split; [exact H1|]. split; [exact H2|].
  rewrite Hr. reflexivity.
Defined.

(** C7, as the claim states it, fails for the base variant: its [load_data]
    returns the project row whose owner is blank. *)
Lemma QuickApp_load_data_keeps_ownerless_row :
  exists p t inputs_df,
    QuickApp.load_data (Some draft_workbook) = Ok (p, t, inputs_df)
    /\ In ownerless_row (rows p)
    /\ isna (ProjectList.project_owner ownerless_row) = true.
Proof.
  exists draft_projects, acme_technicians, empty_inputs.
  split; [reflexivity|]. split; [|reflexivity].
  right. left. reflexivity.
Qed.

(** ** The login *)

Lemma lstrip_blank (s : string) : blank s = true -> lstrip s = "".
Proof.
  unfold blank. induction s as [|c s IH]; simpl; [reflexivity|].
  intros H. apply andb_true_iff in H as [Hc Hs]. rewrite Hc. apply IH, Hs.
Qed.

Lemma strip_blank (s : string) : blank s = true -> strip s = "".
Proof. intros H. unfold strip. rewrite lstrip_blank by exact H. reflexivity. Qed.

Lemma contains_phone (users : DataFrame Users.Row) (p : string) :
  has_column users "phone" = true ->
  contains users Users.Phone p
  = Ok (match filter (has_phone p) (rows users) with
        | [] => false
        | _ => true
        end).
Proof.
  intros H. unfold contains, getitem. cbn [label Users.Phone]. rewrite H.
  cbn [bind field]. f_equal.
  induction (rows users) as [|r l IH]; [reflexivity|].
  cbn [map existsb filter].
  change (str_eq (field Users.Phone r) (Val p)) with (has_phone p r).
  destruct (has_phone p r); [reflexivity|]. exact IH.
Qed.


Lemma authenticate_unknown users_file (users : DataFrame Users.Row) p :
  has_column users "phone" = true ->
  filter (has_phone p) (rows users) = [] ->
  authenticate users_file users p
  = Ok (false, Csv (concat_row users Users.labels (registered p))).
Proof.
  intros Hp Hf. unfold authenticate.
  rewrite contains_phone by exact Hp. rewrite Hf. reflexivity.
Qed.

Lemma show_login_submitted session users_file users phone_input :
  logged_out session ->
  strip phone_input <> "" ->
  show_login session users_file users phone_input true
  = let* auth := authenticate users_file users (strip phone_input) in
    Ok ((true, fst auth, strip phone_input),
        mkSession true (fst auth) (strip phone_input), snd auth).
Proof.
  intros Hs Hne. unfold show_login.
  assert (Hl : logged_in (match session with
                          | Some s => s
                          | None => mkSession false false ""
                          end) = false)
    by (destruct session; [exact Hs | reflexivity]).
  rewrite Hl. cbn [negb].
  destruct (String.eqb_spec (strip phone_input) "") as [E|_]; [contradiction|].
  cbn [negb]. destruct (authenticate users_file users (strip phone_input));
    [|reflexivity].
  destruct a; reflexivity.
Qed.

Lemma has_column_concat_row {R : Type} (df : DataFrame R) ls (r : R) l :
  has_column df l = true \/ In l ls ->
  has_column (concat_row df ls r) l = true.
Proof.
  unfold has_column, concat_row. cbn [columns]. intros H.
  rewrite existsb_app.
  destruct (existsb (String.eqb l) (columns df)) eqn:E; [reflexivity|].
  destruct H as [H|H]; [discriminate|]. cbn [orb].
  apply existsb_exists. exists l. split; [|apply String.eqb_refl].
  apply filter_In. split; [exact H|]. unfold has_column. now rewrite E.
Qed.

Lemma filter_unknown_then_registered (users : DataFrame Users.Row) p :
  filter (has_phone p) (rows users) = [] ->
  filter (has_phone p)
    (rows (concat_row users Users.labels (registered p)))
  = [registered p].
Proof.
  intros Hf. rewrite rows_concat_row, filter_app, Hf. cbn [app filter].
  unfold has_phone at 1, registered at 1. cbn [Users.phone str_eq].
  now rewrite String.eqb_refl.
Qed.

Lemma authenticate_found users_file (users : DataFrame Users.Row) p u rest :
  has_column users "phone" = true ->
  filter (has_phone p) (rows users) = u :: rest ->
  authenticate users_file users p
  = let* user_role := (if has_column users "role" then Ok (Users.role u)
                       else Raise KeyError) in
    let* lowered := lower user_role in
    Ok ((lowered =? "admin")%string, users_file).
Proof.
  intros Hp Hf. unfold authenticate.
  rewrite contains_phone by exact Hp. rewrite Hf. cbn [bind].
  unfold eq_mask. cbn [label Users.Phone]. rewrite Hp. cbn [bind].
  unfold iloc0, loc. cbn [rows columns field Users.Phone].
  fold (has_phone p). rewrite Hf. reflexivity.
Qed.

Lemma columns_nonempty {R : Type} (df : DataFrame R) l :
  has_column df l = true -> columns df <> [].
Proof. unfold has_column. destruct (columns df); [discriminate|discriminate]. Qed.

Lemma load_users_Csv (users : DataFrame Users.Row) :
  columns users <> [] ->
  load_users (Csv users)
  = {| columns := columns users; rows := map Users.csv_row (rows users) |}.
Proof.
  intros H. unfold load_users, read_csv. cbn [exists_].
  destruct (columns users); [contradiction|reflexivity].
Qed.




Lemma has_phone_registered_csv (p : string) :
  has_phone p (Users.csv_row (registered p)) = negb (is_na p).
Proof.
  unfold has_phone, registered. cbn [Users.csv_row Users.phone csv_text].
  destruct (is_na p); cbn [str_eq negb]; [reflexivity|apply String.eqb_refl].
Qed.





(** C9.  A phone input that is empty or consists of whitespace only is
    rejected without a trace: nobody is authenticated, the session is still
    logged out, and the users file is the one that was there, whether the
    registry is passed in or loaded by [main]. *)
Theorem blank_phone_is_rejected session users_file users phone_input
  login_clicked :
  logged_out session ->
  blank phone_input = true ->
  exists session_state,
    show_login session users_file users phone_input login_clicked
    = Ok ((false, false, ""), session_state, users_file)
    /\ main_login session users_file phone_input login_clicked
       = Ok ((false, false, ""), session_state, users_file)
    /\ logged_in session_state = false
    /\ (forall s, session = Some s -> session_state = s).
Proof.
  intros Hs Hb.
  exists (match session with Some s => s | None => mkSession false false "" end).
  assert (Hl : logged_in (match session with
                          | Some s => s
                          | None => mkSession false false ""
                          end) = false)
    by (destruct session; [exact Hs | reflexivity]).
  assert (Hshow : forall users',
            show_login session users_file users' phone_input login_clicked
            = Ok ((false, false, ""),
                  match session with
                  | Some s => s
                  | None => mkSession false false ""
                  end, users_file)).
  { intros users'. unfold show_login. rewrite Hl. cbn [negb].
    rewrite (strip_blank phone_input Hb).
    destruct login_clicked; reflexivity. }
  split; [apply Hshow|]. split; [apply Hshow|]. split; [exact Hl|].
  intros s ->. reflexivity.
Qed.

(** Three spaces and a tab typed into the box of the office registry. *)
Lemma blank_phone_office_registry :
  exists session_state,
    show_login None (Csv office_registry) office_registry
      (String " " (String " " (String " " (String (ascii_of_nat 9) ""))))
      true
    = Ok ((false, false, ""), session_state, Csv office_registry)
    /\ logged_in session_state = false.
Proof.
  destruct (blank_phone_is_rejected None (Csv office_registry) office_registry
              (String " " (String " " (String " " (String (ascii_of_nat 9) ""))))
              true I eq_refl) as (st & H1 & _ & H2 & _).
  exists st. split; assumption.
Defined.

(** C10.  When there is no users file, or one that cannot be parsed,
    [load_users] returns the empty registry with the columns phone, name and
    role; a login against it with any phone that is not blank writes a
    registry whose only record has that phone and the role "user", and the
    admin flag is false. *)
Theorem missing_registry_registers_user session users_file phone_input :
  users_file = NoFile \/ users_file = Unparsable ->
  logged_out session ->
  strip phone_input <> "" ->
  let p := strip phone_input in
  load_users users_file = {| columns := ["phone"; "name"; "role"]; rows := [] |}
  /\ main_login session users_file phone_input true
     = Ok ((true, false, p), mkSession true false p,
           Csv {| columns := ["phone"; "name"; "role"];
                  rows := [Users.mkRow (Val p) (Val "") (Val "user")] |}).
Proof.
  intros Hf Hs Hne p.
  assert (Hload : load_users users_file = empty_users)
    by (destruct Hf as [-> | ->]; reflexivity).
  split; [exact Hload|].
  unfold main_login. rewrite Hload.
  rewrite show_login_submitted by assumption. fold p.
  rewrite authenticate_unknown by reflexivity. reflexivity.
Qed.

(** The first login ever, with no users file on disk. *)
Lemma first_login_without_users_file :
  main_login None NoFile "+97100000" true
  = Ok ((true, false, "+97100000"), mkSession true false "+97100000",
        Csv {| columns := ["phone"; "name"; "role"];
               rows := [Users.mkRow (Val "+97100000") (Val "")
                          (Val "user")] |}).
Proof.
  destruct (missing_registry_registers_user None NoFile "+97100000"
              (or_introl eq_refl) I) as [_ H]; [discriminate|].
  exact H.
Defined.

(** ** The summary *)

Lemma total_of_ok project_df p c :
  field c p <> NaN ->
  total_of project_df p c = Ok (quota project_df p c).
Proof.
  intros H. unfold total_of, quota. apply int_or_0.
  unfold row_get. destruct (has_column project_df (label c));
    [exact H | discriminate].
Qed.

Lemma summary_row_ok project_df inputs_df p :
  has_columns project_df project_key_labels = true ->
  has_columns inputs_df inputs_read_labels = true ->
  quantities_present p ->
  exists s, summary_row project_df inputs_df p = Ok s
            /\ summary_of project_df inputs_df p s.
Proof.
  intros Hp Hi (Q1 & Q2 & Q3 & Q4).
  split_columns Hp. split_columns Hi.
  unfold summary_row, row_getitem.
  cbn [label ProjectList.Project_Owner ProjectList.Project_Name].
  repeat match goal with H : has_column project_df _ = true |- _ =>
    rewrite H; clear H end.
  cbn [bind field].
  rewrite (total_of_ok project_df p ProjectList.Indoors_Qty) by exact Q1.
  rewrite (total_of_ok project_df p ProjectList.VRF_OD_Qty) by exact Q2.
  rewrite (total_of_ok project_df p ProjectList.DX_Outdoor_Qty) by exact Q3.
  rewrite (total_of_ok project_df p ProjectList.AHU_Qty) by exact Q4.
  cbn [bind].
  rewrite inputs_match_ok by assumption. cbn [bind].
  rewrite !completed_ok by assumption. cbn [bind].
  eexists. split; [reflexivity|].
  unfold summary_of. cbn. repeat split; reflexivity.
Qed.

Lemma summary_loop_ok project_df inputs_df p_rows :
  has_columns project_df project_key_labels = true ->
  has_columns inputs_df inputs_read_labels = true ->
  Forall quantities_present p_rows ->
  exists summary,
    summary_loop project_df inputs_df p_rows = Ok summary
    /\ Forall2 (summary_of project_df inputs_df) p_rows summary.
Proof.
  intros Hp Hi Hq. induction Hq as [|p rest Hq1 Hq IH].
  - exists []. split; [reflexivity | constructor].
  - destruct (summary_row_ok project_df inputs_df p Hp Hi Hq1) as (s & Hs & Hof).
    destruct IH as (summary & Hsum & Hall).
    exists (s :: summary). split.
    + cbn [summary_loop]. rewrite Hs. cbn [bind]. rewrite Hsum. reflexivity.
    + constructor; assumption.
Qed.

Lemma quota_present project_df p c :
  has_column project_df (label c) = true ->
  quota project_df p c = value_or_0 (field c p).
Proof. intros H. unfold quota, row_get. now rewrite H. Qed.

Lemma total_of_readable project_df p c :
  readable project_df p c ->
  total_of project_df p c = Ok (quota project_df p c).
Proof.
  intros H. unfold total_of, quota. apply int_or_0.
  unfold row_get. destruct H as [H|H].
  - rewrite H. discriminate.
  - destruct (has_column project_df (label c)); [exact H | discriminate].
Qed.

Lemma quota_absent project_df p c :
  has_column project_df (label c) = false -> quota project_df p c = 0.
Proof. intros H. unfold quota, row_get. now rewrite H. Qed.

Lemma summary_row_readable project_df inputs_df p :
  has_columns project_df project_key_labels = true ->
  has_columns inputs_df inputs_read_labels = true ->
  quantities_readable project_df p ->
  exists s, summary_row project_df inputs_df p = Ok s
            /\ summary_of project_df inputs_df p s.
Proof.
  intros Hp Hi (Q1 & Q2 & Q3 & Q4).
  split_columns Hp. split_columns Hi.
  unfold summary_row, row_getitem.
  cbn [label ProjectList.Project_Owner ProjectList.Project_Name].
  repeat match goal with H : has_column project_df _ = true |- _ =>
    rewrite H; clear H end.
  cbn [bind field].
  rewrite (total_of_readable project_df p ProjectList.Indoors_Qty Q1).
  rewrite (total_of_readable project_df p ProjectList.VRF_OD_Qty Q2).
  rewrite (total_of_readable project_df p ProjectList.DX_Outdoor_Qty Q3).
  rewrite (total_of_readable project_df p ProjectList.AHU_Qty Q4).
  cbn [bind].
  rewrite inputs_match_ok by assumption. cbn [bind].
  rewrite !completed_ok by assumption. cbn [bind].
  eexists. split; [reflexivity|].
  unfold summary_of. cbn. repeat split; reflexivity.
Qed.

Lemma summary_loop_readable project_df inputs_df p_rows :
  has_columns project_df project_key_labels = true ->
  has_columns inputs_df inputs_read_labels = true ->
  Forall (quantities_readable project_df) p_rows ->
  exists summary,
    summary_loop project_df inputs_df p_rows = Ok summary
    /\ Forall2 (summary_of project_df inputs_df) p_rows summary.
Proof.
  intros Hp Hi Hq. induction Hq as [|p rest Hq1 Hq IH].
  - exists []. split; [reflexivity | constructor].
  - destruct (summary_row_readable project_df inputs_df p Hp Hi Hq1)
      as (s & Hs & Hof).
    destruct IH as (summary & Hsum & Hall).
    exists (s :: summary). split.
    + cbn [summary_loop]. rewrite Hs. cbn [bind]. rewrite Hsum. reflexivity.
    + constructor; assumption.
Qed.






(** *** Floats between 0.0 and 1.0 *)















(** * Further properties of the code *)

(** ** Loading and saving *)


Lemma kept_Inputs_labels : filter kept Inputs.labels = Inputs.labels.
Proof. reflexivity. Qed.


Lemma substring_0_all (n : nat) (s : string) :
  (String.length s <= n)%nat -> substring 0 n s = s.
Proof.
  revert s. induction n as [|n IH]; intros [|c s] H; cbn in *;
    try reflexivity; try lia.
  f_equal. apply IH. lia.
Qed.

Lemma substring_0_length (n : nat) (s : string) :
  (String.length (substring 0 n s) <= n)%nat.
Proof.
  revert s. induction n as [|n IH]; intros [|c s]; cbn; try lia.
  specialize (IH s). lia.
Qed.



Lemma excel_text_idem (c : cell string) :
  excel_text (excel_text c) = excel_text c.
Proof.
  destruct c as [| |s]; try reflexivity.
  change (excel_text (Val s))
    with (let t := substring 0 (Z.to_nat 32767) s in
          if is_formula t || is_error_code t || is_na t then NaN else Val t).
  cbv zeta. set (t := substring 0 (Z.to_nat 32767) s).
  destruct (is_formula t || is_error_code t || is_na t) eqn:E;
    [reflexivity|].
  unfold excel_text.
  rewrite (substring_0_all (Z.to_nat 32767) t)
    by apply substring_0_length.
  now rewrite E.
Qed.

Lemma excel_date_idem (c : cell DateValue) :
  excel_date (excel_date c) = excel_date c.
Proof. destruct c as [| |[d|d]]; reflexivity. Qed.

Lemma excel_row_idem (r : Inputs.Row) :
  Inputs.excel_row (Inputs.excel_row r) = Inputs.excel_row r.
Proof.
  unfold Inputs.excel_row. cbn [Inputs.date Inputs.project_owner
    Inputs.project_name Inputs.emirate Inputs.indoors_completed
    Inputs.vrf_od_completed Inputs.dx_outdoor_completed Inputs.ahu_completed
    Inputs.technician_name_1 Inputs.technician_name_2
    Inputs.technician_name_3 Inputs.helper_name_1 Inputs.helper_name_2
    Inputs.helper_name_3].
  now rewrite excel_date_idem, !excel_text_idem.
Qed.

Lemma excel_frame_idem (df : DataFrame Inputs.Row) :
  Inputs.excel_frame (Inputs.excel_frame df) = Inputs.excel_frame df.
Proof.
  unfold Inputs.excel_frame. cbn [columns rows]. f_equal.
  rewrite map_map. apply map_ext, excel_row_idem.
Qed.




Lemma dropna_projects_KeyError (p : DataFrame ProjectList.Row) :
  has_columns p project_key_labels = false ->
  dropna p [ProjectList.Project_Owner; ProjectList.Project_Name]
  = Raise KeyError.
Proof.
  intros Hp. unfold dropna.
  replace (forallb (fun c => has_column p (label c))
             [ProjectList.Project_Owner; ProjectList.Project_Name])
    with (has_columns p project_key_labels) by reflexivity.
  now rewrite Hp.
Qed.

Lemma dropna_technicians_KeyError (t : DataFrame TechnicianList.Row) :
  has_column t "Technician Name" = false ->
  dropna t [TechnicianList.Technician_Name] = Raise KeyError.
Proof.
  intros Ht. unfold dropna.
  cbn [forallb label TechnicianList.Technician_Name]. now rewrite Ht.
Qed.

Lemma NoVerification_load_data_KeyError xls p t :
  sheet_Project_List xls = Some p ->
  sheet_Technician_List xls = Some t ->
  has_columns p project_key_labels = false
  \/ has_column t "Technician Name" = false ->
  NoVerification.load_data (Some xls) = Raise KeyError.
Proof.
  intros Hp Ht Hbad. unfold NoVerification.load_data.
  cbn [ExcelFile bind]. rewrite Hp, Ht. cbn [read_excel bind].
  rewrite try_read_inputs by reflexivity. cbn [bind].
  destruct (has_columns p project_key_labels) eqn:Hc.
  - rewrite dropna_projects_ok by exact Hc. cbn [bind].
    destruct Hbad as [Hbad|Hbad]; [discriminate|].
    now rewrite (dropna_technicians_KeyError t Hbad).
  - now rewrite (dropna_projects_KeyError p Hc).
Qed.

Lemma load_data_missing_sheet xls :
  sheet_Project_List xls = None \/ sheet_Technician_List xls = None ->
  QuickApp.load_data (Some xls) = Raise ValueError
  /\ NoVerification.load_data (Some xls) = Raise ValueError.
Proof.
  intros Hbad.
  unfold QuickApp.load_data, NoVerification.load_data.
  cbn [ExcelFile bind].
  destruct (sheet_Project_List xls) as [p|]; [|split; reflexivity].
  destruct Hbad as [Hbad|Hbad]; [discriminate|]. rewrite Hbad.
  split; reflexivity.
Qed.

(** X1.  What [load_data] needs.  It never succeeds without the workbook
    file and its sheets "Project List" and "Technician List"; the login
    variant succeeds exactly when these are there together with their
    identity columns, whatever the sheet "Inputs" is like.  A missing file
    raises [FileNotFoundError] and a missing reference sheet [ValueError],
    which the [try] around the sheet "Inputs" does not catch; the login
    variant raises [KeyError] for a missing identity column. *)
Theorem load_data_requirements (file : option Workbook) :
  ((exists tables, QuickApp.load_data file = Ok tables)
   -> exists xls p t,
        file = Some xls /\ sheet_Project_List xls = Some p
        /\ sheet_Technician_List xls = Some t)
  /\ ((exists tables, NoVerification.load_data file = Ok tables)
      <-> exists xls p t,
            file = Some xls /\ sheet_Project_List xls = Some p
            /\ sheet_Technician_List xls = Some t
            /\ has_columns p project_key_labels = true
            /\ has_column t "Technician Name" = true)
  /\ (file = None ->
      QuickApp.load_data file = Raise FileNotFoundError
      /\ NoVerification.load_data file = Raise FileNotFoundError)
  /\ (forall xls,
        file = Some xls ->
        sheet_Project_List xls = None \/ sheet_Technician_List xls = None ->
        QuickApp.load_data file = Raise ValueError
        /\ NoVerification.load_data file = Raise ValueError)
  /\ (forall xls p t,
        file = Some xls -> sheet_Project_List xls = Some p ->
        sheet_Technician_List xls = Some t ->
        has_columns p project_key_labels = false
        \/ has_column t "Technician Name" = false ->
        NoVerification.load_data file = Raise KeyError).
Proof.
  pose proof NoVerification_load_data_KeyError as Hkey.
  pose proof load_data_missing_sheet as Hmiss.
  split; [|split; [|split; [|split]]].
  - intros [tables H]. destruct file as [xls|]; [|discriminate].
    destruct (sheet_Project_List xls) as [p|] eqn:Hp.
    + destruct (sheet_Technician_List xls) as [t|] eqn:Ht.
      * now exists xls, p, t.
      * destruct (Hmiss xls (or_intror Ht)) as [E _]. congruence.
    + destruct (Hmiss xls (or_introl Hp)) as [E _]. congruence.
  - split.
    + intros [tables H]. destruct file as [xls|]; [|discriminate].
      destruct (sheet_Project_List xls) as [p|] eqn:Hp.
      * destruct (sheet_Technician_List xls) as [t|] eqn:Ht.
        -- exists xls, p, t. split; [reflexivity|]. split; [exact Hp|].
           split; [exact Ht|]. split.
           ++ destruct (has_columns p project_key_labels) eqn:Hc;
                [reflexivity|].
              rewrite (Hkey xls p t Hp Ht (or_introl Hc)) in H. discriminate.
           ++ destruct (has_column t "Technician Name") eqn:Hc;
                [reflexivity|].
              rewrite (Hkey xls p t Hp Ht (or_intror Hc)) in H. discriminate.
        -- destruct (Hmiss xls (or_intror Ht)) as [_ E]. congruence.
      * destruct (Hmiss xls (or_introl Hp)) as [_ E]. congruence.
    + intros (xls & p & t & -> & Hp & Ht & Hc & Hn). eexists.
      apply NoVerification_load_data_ok; eassumption.
  - intros ->. split; reflexivity.
  - intros xls -> Hbad. apply Hmiss, Hbad.
  - intros xls p t -> Hp Ht Hbad. exact (Hkey xls p t Hp Ht Hbad).
Qed.

(** The scenario workbook has no sheet "Inputs" and loads in the login
    variant; a workbook that lacks the technician sheet does not load,
    whatever else it holds, and neither does a missing file. *)
Lemma load_data_requirements_examples :
  (exists tables, NoVerification.load_data (Some acme_workbook) = Ok tables)
  /\ QuickApp.load_data
       (Some {| sheet_Project_List := Some acme_projects;
                sheet_Technician_List := None;
                sheet_Inputs := Some acme_log |})
     = Raise ValueError
  /\ QuickApp.load_data None = Raise FileNotFoundError.
Proof.
  split; [|split].
  - destruct (load_data_requirements (Some acme_workbook))
      as (_ & [_ H] & _).
    apply H. exists acme_workbook, acme_projects, acme_technicians.
    repeat split; reflexivity.
  - destruct (load_data_requirements
                (Some {| sheet_Project_List := Some acme_projects;
                         sheet_Technician_List := None;
                         sheet_Inputs := Some acme_log |}))
      as (_ & _ & _ & H & _).
    destruct (H _ eq_refl (or_intror eq_refl)) as [E _]. exact E.
  - destruct (load_data_requirements None) as (_ & _ & H & _).
    destruct (H eq_refl) as [E _]. exact E.
Defined.



(** ** Submissions and the remaining quota *)

Lemma has_columns_concat_row {R : Type} (df : DataFrame R) ls (r : R) ls' :
  has_columns df ls' = true -> has_columns (concat_row df ls r) ls' = true.
Proof.
  unfold has_columns. rewrite !forallb_forall. intros H l Hl.
  apply has_column_concat_row. left. apply H, Hl.
Qed.

(** The remaining quota looks at the log only through the columns it reads
    and the rows of the selected project. *)
Lemma remaining_same_project_rows project_df inputs1 inputs2 owner name :
  has_columns inputs1 inputs_read_labels = true ->
  has_columns inputs2 inputs_read_labels = true ->
  filter (is_for owner name) (rows inputs1)
  = filter (is_for owner name) (rows inputs2) ->
  remaining project_df inputs1 owner name
  = remaining project_df inputs2 owner name.
Proof.
  intros H1 H2 Hrows. unfold remaining.
  destruct (truthy_str name); [|reflexivity].
  destruct (project_match project_df owner name) as [project_row|e];
    [|reflexivity].
  cbn [bind]. destruct (empty project_row); [reflexivity|]. cbn [negb].
  destruct (total project_row ProjectList.Indoors_Qty); [|reflexivity].
  cbn [bind].
  destruct (total project_row ProjectList.VRF_OD_Qty); [|reflexivity].
  cbn [bind].
  destruct (total project_row ProjectList.DX_Outdoor_Qty); [|reflexivity].
  cbn [bind].
  destruct (total project_row ProjectList.AHU_Qty); [|reflexivity].
  cbn [bind].
  split_columns H1. split_columns H2.
  rewrite !inputs_match_ok by assumption. cbn [bind].
  rewrite !completed_ok by assumption. cbn [bind rows loc].
  rewrite Hrows. reflexivity.
Qed.

Lemma str_eq_self (c v : cell string) : str_eq c v = true -> str_eq v v = true.
Proof.
  destruct c, v; try discriminate. intros _. apply String.eqb_refl.
Qed.

Lemma str_eq_neq (c v : cell string) : c <> v -> str_eq c v = false.
Proof.
  destruct c as [| |a], v as [| |b]; try reflexivity. intros H.
  apply String.eqb_neq. congruence.
Qed.

Lemma completed_sum_concat_row inputs_df ls r owner name count :
  completed_sum (concat_row inputs_df ls r) owner name count
  = completed_sum inputs_df owner name count
    + (if is_for owner name r then count r else 0).
Proof.
  unfold completed_sum. rewrite rows_concat_row, filter_app, map_app.
  unfold Zsum. rewrite fold_right_app. cbn [filter].
  assert (Hshift : forall l z, fold_right Z.add z l = fold_right Z.add 0 l + z).
  { induction l as [|x l IH]; intros z; cbn [fold_right]; [lia|].
    rewrite IH. lia. }
  rewrite Hshift. destruct (is_for owner name r); cbn [map fold_right]; lia.
Qed.

Lemma submitted_concat_row inputs_df ls r o n count :
  submission_of o n r ->
  submitted (concat_row inputs_df ls r) o n count
  = submitted inputs_df o n count + count r.
Proof.
  intros Hr. rewrite <- !completed_sum_submitted, completed_sum_concat_row.
  apply is_for_Val in Hr. now rewrite Hr.
Qed.

(** X3.  A submission for the selected project lowers each remaining number
    by the submitted count, as long as the counts and the sums of the log
    stay within the 64-bit range: exactly so when the count lies between 0 and what
    remained, and down to 0 when it is larger; with counts that are not
    negative the remaining numbers do not grow. *)
Theorem submission_lowers_remaining project_df inputs_df o n earlier p later
  today emirate i v d a techs helpers :
  has_columns project_df (project_key_labels ++ quantity_labels) = true ->
  has_columns inputs_df inputs_read_labels = true ->
  n <> "" ->
  rows project_df = earlier ++ p :: later ->
  project_of o n p ->
  (forall e, In e earlier -> ~ project_of o n e) ->
  quantities_present p ->
  let inputs_df' :=
    concat_row inputs_df Inputs.labels
      (new_row (Val o) (Val n) today emirate i v d a techs helpers) in
  counts_in_int64 inputs_df' ->
  sums_in_int64 inputs_df o n ->
  sums_in_int64 inputs_df' o n ->
  exists q q',
    remaining project_df inputs_df (Val o) (Val n) = Ok q
    /\ remaining project_df inputs_df' (Val o) (Val n) = Ok q'
    /\ (0 <= i <= indoor q -> indoor q' = indoor q - i)
    /\ (0 <= v <= vrf q -> vrf q' = vrf q - v)
    /\ (0 <= d <= dx q -> dx q' = dx q - d)
    /\ (0 <= a <= ahu q -> ahu q' = ahu q - a)
    /\ (indoor q <= i -> indoor q' = 0) /\ (vrf q <= v -> vrf q' = 0)
    /\ (dx q <= d -> dx q' = 0) /\ (ahu q <= a -> ahu q' = 0)
    /\ (0 <= i -> indoor q' <= indoor q) /\ (0 <= v -> vrf q' <= vrf q)
    /\ (0 <= d -> dx q' <= dx q) /\ (0 <= a -> ahu q' <= ahu q).
Proof.
  intros Hp Hi Hn Hrows Hpo Hearlier Hq inputs_df' _
    (R1 & R2 & R3 & R4) (R1' & R2' & R3' & R4').
  subst inputs_df'.
  assert (Ht : truthy_str (Val n) = true).
  { cbn [truthy_str]. destruct (String.eqb_spec n ""); [contradiction|].
    reflexivity. }
  assert (Hm : filter (is_project (Val o) (Val n)) (rows project_df)
               = p :: filter (is_project (Val o) (Val n)) later).
  { rewrite Hrows. apply filter_first.
    - now apply is_project_Val.
    - intros e He. apply not_true_false. intros E.
      apply (Hearlier e He). now apply is_project_Val. }
  rewrite (remaining_match _ _ _ _ _ _ Hp Hi Ht Hm Hq).
  rewrite (remaining_match _ _ _ _ _ _ Hp
             (has_columns_concat_row _ _ _ _ Hi) Ht Hm Hq).
  rewrite !completed_sum_submitted.
  rewrite !int64_small by assumption.
  rewrite !submitted_concat_row by (split; reflexivity).
  eexists; eexists. split; [reflexivity|]. split; [reflexivity|].
  cbn [indoor vrf dx ahu new_row Inputs.indoors_completed
       Inputs.vrf_od_completed Inputs.dx_outdoor_completed
       Inputs.ahu_completed].
  repeat split; lia.
Qed.

(** The scenario of the specification: 10, 5, 0 and 2 units remain, the day's
    record reports 4 indoor units and 1 VRF unit, so 6, 4, 0 and 2 remain. *)
Lemma submission_acme_day1 :
  exists q q',
    remaining acme_projects empty_inputs (Val "Acme") (Val "Tower A") = Ok q
    /\ remaining acme_projects
         (concat_row empty_inputs Inputs.labels acme_day1)
         (Val "Acme") (Val "Tower A") = Ok q'
    /\ q = mkQuotas 10 5 0 2 /\ indoor q' = 6 /\ vrf q' = 4.
Proof.
  destruct (submission_lowers_remaining acme_projects empty_inputs
              "Acme" "Tower A" [] acme_tower [] 739000 (Val "Dubai")
              4 1 0 0 ["Ali"; "Omar"] [] eq_refl eq_refl)
    as (q & q' & Hq & Hq' & Hi & Hv & _).
  - discriminate.
  - reflexivity.
  - split; reflexivity.
  - intros e [].
  - unfold quantities_present; simpl; repeat split; discriminate.
  - repeat constructor; vm_compute; discriminate.
  - vm_compute; repeat split; discriminate || reflexivity.
  - vm_compute; repeat split; discriminate || reflexivity.
  - exists q, q'. split; [exact Hq|]. split; [exact Hq'|].
    assert (E : q = mkQuotas 10 5 0 2)
      by (vm_compute in Hq; injection Hq as <-; reflexivity).
    split; [exact E|]. subst q. cbn [indoor vrf] in Hi, Hv.
    split; [rewrite Hi by lia; reflexivity | rewrite Hv by lia; reflexivity].
Defined.

(** X4.  A record for another project leaves the remaining quota of the
    selected one as it was. *)
Theorem other_project_leaves_remaining project_df inputs_df owner name
  owner' name' today emirate i v d a techs helpers :
  has_columns inputs_df inputs_read_labels = true ->
  owner' <> owner \/ name' <> name ->
  remaining project_df
    (concat_row inputs_df Inputs.labels
       (new_row owner' name' today emirate i v d a techs helpers))
    owner name
  = remaining project_df inputs_df owner name.
Proof.
  intros Hi Hne. apply remaining_same_project_rows.
  - apply has_columns_concat_row, Hi.
  - exact Hi.
  - rewrite rows_concat_row, filter_app. cbn [filter].
    unfold is_for at 2, new_row.
    cbn [Inputs.project_owner Inputs.project_name].
    destruct Hne as [Hne|Hne]; rewrite (str_eq_neq _ _ Hne);
      rewrite ?andb_false_r; cbn [andb]; apply app_nil_r.
Qed.

(** A day's work on "Tower B" does not touch what remains for "Tower A". *)
Lemma other_project_acme :
  remaining acme_projects
    (concat_row acme_log Inputs.labels
       (new_row (Val "Acme") (Val "Tower B") 739001 (Val "Dubai") 3 3 0 0
          ["Ali"] []))
    (Val "Acme") (Val "Tower A")
  = Ok (mkQuotas 6 4 0 2).
Proof.
  rewrite (other_project_leaves_remaining acme_projects acme_log
             (Val "Acme") (Val "Tower A") (Val "Acme") (Val "Tower B")
             739001 (Val "Dubai") 3 3 0 0 ["Ali"] [] eq_refl).
  - reflexivity.
  - right. discriminate.
Defined.









(** ** The team of a record *)

Lemma names_in_name_at (selected : list string) :
  (List.length selected <= 3)%nat ->
  ~ In "" selected ->
  names_in [name_at selected 0; name_at selected 1; name_at selected 2]
  = selected.
Proof.
  intros Hlen Hne.
  assert (Hk : forall x, In x selected -> negb (x =? "")%string = true).
  { intros x Hx. apply negb_true_iff, String.eqb_neq. intros ->.
    exact (Hne Hx). }
  destruct selected as [|x1 [|x2 [|x3 [|x4 l]]]];
    try (cbn in Hlen; lia); unfold names_in, name_at;
    cbn [nth series_dropna filter];
    rewrite ?String.eqb_refl; cbn [negb];
    repeat (rewrite Hk by (cbn; auto)); reflexivity.
Qed.

(** X6.  The team of a record.  With at most three technicians and at most
    three helpers selected (the limit of the two selection boxes), none of
    them the empty name, the record keeps every selected name in its order:
    reading the non-empty names back from the three technician fields and
    the three helper fields gives the two selections again.  Unused fields
    hold "", and of a longer selection only the first three names are
    kept. *)
Theorem team_is_recorded owner name today emirate i v d a techs helpers :
  let row := new_row owner name today emirate i v d a techs helpers in
  ((List.length techs <= 3)%nat -> ~ In "" techs ->
   technicians_of row = techs)
  /\ ((List.length helpers <= 3)%nat -> ~ In "" helpers ->
      helpers_of row = helpers)
  /\ [Inputs.technician_name_1 row; Inputs.technician_name_2 row;
      Inputs.technician_name_3 row]
     = map Val (firstn 3 (techs ++ [""; ""; ""]))
  /\ [Inputs.helper_name_1 row; Inputs.helper_name_2 row;
      Inputs.helper_name_3 row]
     = map Val (firstn 3 (helpers ++ [""; ""; ""])).
Proof.
  intros row. split; [|split; [|split]].
  - intros Hl Hn. apply names_in_name_at; assumption.
  - intros Hl Hn. apply names_in_name_at; assumption.
  - subst row. unfold new_row, name_at. cbn [Inputs.technician_name_1
      Inputs.technician_name_2 Inputs.technician_name_3].
    destruct techs as [|x1 [|x2 [|x3 l]]]; reflexivity.
  - subst row. unfold new_row, name_at. cbn [Inputs.helper_name_1
      Inputs.helper_name_2 Inputs.helper_name_3].
    destruct helpers as [|x1 [|x2 [|x3 l]]]; reflexivity.
Qed.

(** Ali and Omar with no helper, as in the scenario. *)
Lemma team_acme_day1 :
  technicians_of acme_day1 = ["Ali"; "Omar"] /\ helpers_of acme_day1 = [].
Proof.
  destruct (team_is_recorded (Val "Acme") (Val "Tower A") 739000 (Val "Dubai")
              4 1 0 0 ["Ali"; "Omar"] []) as (Ht & Hh & _).
  split.
  - apply Ht; [cbn; lia|]. cbn. intros [H|[H|[]]]; discriminate.
  - apply Hh; [cbn; lia|]. intros [].
Defined.

(** ** The lists the form offers *)

Lemma In_series_dropna (s : list (cell string)) (v : string) :
  In v (series_dropna s) <-> In (Val v) s.
Proof.
  induction s as [|c s IH]; [reflexivity|].
  destruct c as [| |a]; cbn [series_dropna In]; rewrite IH.
  - split; [auto | intros [H|H]; [discriminate | exact H]].
  - split; [auto | intros [H|H]; [discriminate | exact H]].
  - split; (intros [H|H]; [left; congruence | right; exact H]).
Qed.

Lemma In_unique (xs : list string) (x : string) : In x (unique xs) <-> In x xs.
Proof.
  induction xs as [|y xs IH]; [reflexivity|]. cbn [unique In].
  rewrite filter_In, IH. split.
  - intros [H|[H _]]; auto.
  - intros [H|H]; [left; exact H|].
    destruct (String.eqb_spec x y) as [->|Hne]; [left; reflexivity|].
    right. split; [exact H | reflexivity].
Qed.

Lemma NoDup_unique (xs : list string) : NoDup (unique xs).
Proof.
  induction xs as [|y xs IH]; [constructor|]. cbn [unique]. constructor.
  - intros H. apply filter_In in H as [_ H]. now rewrite String.eqb_refl in H.
  - apply NoDup_filter, IH.
Qed.

Lemma sorted_spec (xs : list string) :
  Sorted str_le (sorted xs)
  /\ (NoDup xs -> NoDup (sorted xs))
  /\ (forall x, In x (sorted xs) <-> In x xs).
Proof.
  pose proof (StringSort.Permuted_sort xs) as HP. split; [|split].
  - exact (StringSort.Sorted_sort xs).
  - intros H. exact (Permutation_NoDup HP H).
  - intros x. split; intros H.
    + exact (Permutation_in x (Permutation_sym HP) H).
    + exact (Permutation_in x HP H).
Qed.

(** The names a column offers: sorted, each once, and exactly the strings
    that occur in the column. *)
Lemma sorted_unique_dropna {R : Type} (df : DataFrame R)
  (c : Column R (cell string)) :
  let names := sorted (unique (series_dropna (map (field c) (rows df)))) in
  Sorted str_le names /\ NoDup names
  /\ forall v, In v names <-> exists r, In r (rows df) /\ field c r = Val v.
Proof.
  intros names. subst names.
  destruct (sorted_spec (unique (series_dropna (map (field c) (rows df)))))
    as (Hs & Hn & Hi).
  split; [exact Hs|]. split; [apply Hn, NoDup_unique|].
  intros v. rewrite Hi, In_unique, In_series_dropna, in_map_iff.
  split; intros (r & H1 & H2); exists r; auto.
Qed.

(** X7.  The owners and the technicians the form offers.  When the column is
    there, the list is in Python's string order, has no name twice, and holds
    exactly the names that occur in the column (blank cells left out); when
    the column is missing the page fails with [KeyError]. *)
Theorem offered_names_sorted_and_complete :
  (forall project_df,
     has_column project_df "Project Owner" = true ->
     exists os,
       owners project_df = Ok os /\ Sorted str_le os /\ NoDup os
       /\ forall o, In o os <->
                    exists r, In r (rows project_df)
                              /\ ProjectList.project_owner r = Val o)
  /\ (forall technician_df,
        has_column technician_df "Technician Name" = true ->
        exists ts,
          technician_names technician_df = Ok ts
          /\ Sorted str_le ts /\ NoDup ts
          /\ forall t, In t ts <->
                       exists r, In r (rows technician_df)
                                 /\ TechnicianList.technician_name r = Val t)
  /\ (forall project_df,
        has_column project_df "Project Owner" = false ->
        owners project_df = Raise KeyError)
  /\ (forall technician_df,
        has_column technician_df "Technician Name" = false ->
        technician_names technician_df = Raise KeyError).
Proof.
  split; [|split; [|split]].
  - intros project_df H. eexists. split.
    + unfold owners, getitem. cbn [label ProjectList.Project_Owner].
      rewrite H. reflexivity.
    + exact (sorted_unique_dropna project_df ProjectList.Project_Owner).
  - intros technician_df H. eexists. split.
    + unfold technician_names, getitem.
      cbn [label TechnicianList.Technician_Name]. rewrite H. reflexivity.
    + exact (sorted_unique_dropna technician_df
               TechnicianList.Technician_Name).
  - intros project_df H. unfold owners, getitem.
    cbn [label ProjectList.Project_Owner]. now rewrite H.
  - intros technician_df H. unfold technician_names, getitem.
    cbn [label TechnicianList.Technician_Name]. now rewrite H.
Qed.

(** The city list names Zenith, Acme, Zenith, Zenith: the owner box offers
    Acme before Zenith, each once. *)
Lemma owners_city_projects :
  owners city_projects = Ok ["Acme"; "Zenith"]
  /\ technician_names acme_technicians = Ok ["Ali"; "Omar"].
Proof.
  destruct offered_names_sorted_and_complete as (Ho & Ht & _).
  destruct (Ho city_projects eq_refl) as (os & Hos & _).
  destruct (Ht acme_technicians eq_refl) as (ts & Hts & _).
  split.
  - rewrite Hos. f_equal.
    assert (E : Ok os = Ok ["Acme"; "Zenith"])
      by (rewrite <- Hos; reflexivity).
    injection E as ->. reflexivity.
  - rewrite Hts. f_equal.
    assert (E : Ok ts = Ok ["Ali"; "Omar"])
      by (rewrite <- Hts; reflexivity).
    injection E as ->. reflexivity.
Defined.

Lemma project_options_ok project_df owner :
  has_columns project_df project_key_labels = true ->
  project_options project_df owner
  = Ok (unique (series_dropna
                  (map ProjectList.project_name
                     (filter (fun r => str_eq (ProjectList.project_owner r)
                                         owner)
                        (rows project_df))))).
Proof.
  intros H. apply has_columns_cons in H as [Ho H].
  apply has_columns_cons in H as [Hn _].
  unfold project_options, eq_mask.
  cbn [label ProjectList.Project_Owner]. rewrite Ho. cbn [bind].
  unfold getitem. cbn [label ProjectList.Project_Name].
  change (has_column (loc project_df ?m) "Project Name")
    with (has_column project_df "Project Name").
  rewrite Hn. reflexivity.
Qed.

Lemma str_eq_PyNone (c : cell string) : str_eq c PyNone = false.
Proof. destruct c; reflexivity. Qed.

Lemma filter_none {A : Type} (f : A -> bool) (l : list A) :
  (forall x, f x = false) -> filter f l = [].
Proof.
  intros H. induction l as [|x l IH]; [reflexivity|].
  cbn [filter]. now rewrite H.
Qed.

(** X8.  The projects the form offers for an owner, and what a selection
    finds.  With the two identity columns there, the project box offers, each
    once, exactly the names of the rows of that owner; every offered name
    identifies a project row, and the emirate shown for it is the emirate of
    the first such row.  With no owner to select, the box is empty, and for
    an empty selection the emirate shown is "" and the four limits are 0. *)
Theorem offered_project_is_found project_df o :
  has_columns project_df project_key_labels = true ->
  exists options,
    project_options project_df (Val o) = Ok options
    /\ NoDup options
    /\ (forall n, In n options <->
                  exists r, In r (rows project_df)
                            /\ ProjectList.project_owner r = Val o
                            /\ ProjectList.project_name r = Val n)
    /\ (forall n, In n options ->
          exists p rest,
            filter (is_project (Val o) (Val n)) (rows project_df) = p :: rest
            /\ (n <> "" -> has_column project_df "Emirate" = true ->
                lookup_emirate project_df (Val o) (Val n)
                = Ok (ProjectList.emirate p)))
    /\ project_options project_df PyNone = Ok []
    /\ lookup_emirate project_df PyNone PyNone = Ok (Val "")
    /\ forall inputs_df,
         remaining project_df inputs_df PyNone PyNone = Ok (mkQuotas 0 0 0 0).
Proof.
  intros H. eexists. split; [apply project_options_ok, H|].
  split; [apply NoDup_unique|].
  assert (Hin : forall n,
            In n (unique (series_dropna
                            (map ProjectList.project_name
                               (filter (fun r => str_eq
                                           (ProjectList.project_owner r)
                                           (Val o))
                                  (rows project_df)))))
            <-> exists r, In r (rows project_df)
                          /\ ProjectList.project_owner r = Val o
                          /\ ProjectList.project_name r = Val n).
  { intros n. rewrite In_unique, In_series_dropna, in_map_iff. split.
    - intros (r & Hn & Hr). apply filter_In in Hr as [Hr Ho].
      apply str_eq_Val in Ho. exists r. auto.
    - intros (r & Hr & Ho & Hn). exists r. split; [exact Hn|].
      apply filter_In. split; [exact Hr | apply str_eq_Val, Ho]. }
  split; [exact Hin|]. split.
  - intros n Hn. apply Hin in Hn as (r & Hr & Ho & Hname).
    assert (Hf : In r (filter (is_project (Val o) (Val n)) (rows project_df))).
    { apply filter_In. split; [exact Hr|]. apply is_project_Val. auto. }
    destruct (filter (is_project (Val o) (Val n)) (rows project_df))
      as [|p rest] eqn:E; [destruct Hf|].
    exists p, rest. split; [reflexivity|]. intros Hne He.
    apply has_columns_cons in H as [Hco H].
    apply has_columns_cons in H as [Hcn _].
    unfold lookup_emirate. cbn [truthy_str].
    destruct (String.eqb_spec n "") as [->|_]; [contradiction|]. cbn [negb].
    rewrite project_match_ok by assumption. cbn [bind].
    rewrite (empty_false (loc project_df (is_project (Val o) (Val n)))
               "Project Owner" p rest Hco E).
    cbn [negb]. unfold iloc0, loc. cbn [rows]. rewrite E.
    cbn [label ProjectList.Emirate]. unfold has_column in *. cbn [columns].
    rewrite He. reflexivity.
  - split.
    { rewrite project_options_ok by exact H.
      rewrite filter_none; [reflexivity|].
      intros r. apply str_eq_PyNone. }
    split; reflexivity.
Qed.

(** Zenith has the projects Mall and Clinic, in the order of the sheet, and
    a row without a name that is not offered; Mall is in Ajman. *)
Lemma offered_projects_city :
  project_options city_projects (Val "Zenith") = Ok ["Mall"; "Clinic"]
  /\ lookup_emirate city_projects (Val "Zenith") (Val "Mall")
     = Ok (Val "Ajman").
Proof.
  destruct (offered_project_is_found city_projects "Zenith" eq_refl)
    as (options & Ho & _ & Hin & Hfound & _).
  assert (E : Ok options = Ok ["Mall"; "Clinic"])
    by (rewrite <- Ho; reflexivity).
  injection E as ->. split; [exact Ho|].
  destruct (Hfound "Mall" (or_introl eq_refl)) as (p & rest & Hf & He).
  rewrite He; [|discriminate|reflexivity].
  cbv in Hf. injection Hf as <- _. reflexivity.
Defined.

(** ** The login and the registry *)

Lemma rstrip_idem (t : string) : rstrip (rstrip t) = rstrip t.
Proof.
  induction t as [|c t IH]; [reflexivity|]. cbn [rstrip].
  destruct (rstrip t) as [|c' u] eqn:E.
  - destruct (isspace c) eqn:Hc; [reflexivity|].
    cbn [rstrip]. now rewrite Hc.
  - cbn [rstrip]. cbn [rstrip] in IH. rewrite IH. reflexivity.
Qed.

Lemma lstrip_head (s : string) :
  lstrip s = "" \/ exists c u, lstrip s = String c u /\ isspace c = false.
Proof.
  induction s as [|c s IH]; [left; reflexivity|]. cbn [lstrip].
  destruct (isspace c) eqn:Hc; [exact IH|]. right. exists c, s. auto.
Qed.

Lemma lstrip_rstrip_head (c : ascii) (u : string) :
  isspace c = false -> lstrip (rstrip (String c u)) = rstrip (String c u).
Proof.
  intros Hc. cbn [rstrip]. destruct (rstrip u); rewrite ?Hc;
    cbn [lstrip]; now rewrite Hc.
Qed.

Lemma strip_idem (s : string) : strip (strip s) = strip s.
Proof.
  unfold strip. destruct (lstrip_head s) as [E|(c & u & E & Hc)]; rewrite E.
  - reflexivity.
  - rewrite (lstrip_rstrip_head c u Hc). apply rstrip_idem.
Qed.

Lemma authenticate_writes users_file users p is_admin users_file' :
  authenticate users_file users p = Ok (is_admin, users_file') ->
  users_file' = users_file
  \/ (filter (has_phone p) (rows users) = [] /\ is_admin = false
      /\ users_file' = Csv (concat_row users Users.labels (registered p))).
Proof.
  unfold authenticate. intros H.
  destruct (has_column users "phone") eqn:Hp.
  - rewrite contains_phone in H by exact Hp.
    destruct (filter (has_phone p) (rows users)) as [|u rest] eqn:Hf.
    + cbn [bind] in H. injection H as <- <-. right. auto.
    + cbn [bind] in H. left.
      destruct (eq_mask users Users.Phone (Val p)); [|discriminate].
      cbn [bind] in H.
      match type of H with
      | bind ?c _ = _ => destruct c; [|discriminate]
      end.
      cbn [bind] in H.
      match type of H with
      | bind ?c _ = _ => destruct c; [|discriminate]
      end.
      cbn [bind] in H. now injection H as _ <-.
  - unfold contains, getitem in H. cbn [label Users.Phone] in H.
    rewrite Hp in H. discriminate.
Qed.

Lemma csv_text_idem (c : cell string) : csv_text (csv_text c) = csv_text c.
Proof.
  destruct c as [| |s]; try reflexivity. cbn [csv_text].
  destruct (is_na s) eqn:E; [reflexivity|]. cbn [csv_text]. now rewrite E.
Qed.

Lemma csv_row_idem (r : Users.Row) :
  Users.csv_row (Users.csv_row r) = Users.csv_row r.
Proof.
  unfold Users.csv_row. cbn [Users.phone Users.name Users.role].
  now rewrite !csv_text_idem.
Qed.

Lemma registry_rows_read (f : UsersFile) :
  map Users.csv_row (registry_rows f) = registry_rows f.
Proof.
  unfold registry_rows, load_users, read_csv.
  destruct f as [| |users]; try reflexivity. cbn [exists_].
  destruct (columns users); [reflexivity|]. cbn [rows].
  rewrite map_map. apply map_ext, csv_row_idem.
Qed.

Lemma registry_rows_appended (f : UsersFile) (p : string) :
  registry_rows
    (Csv (concat_row (load_users f) Users.labels (registered p)))
  = registry_rows f
    ++ [Users.mkRow (if is_na p then NaN else Val p) NaN (Val "user")].
Proof.
  unfold registry_rows at 1. rewrite load_users_Csv.
  - cbn [rows]. rewrite rows_concat_row, map_app.
    fold (registry_rows f). rewrite registry_rows_read. reflexivity.
  - apply (@columns_nonempty _ _ "phone").
    apply has_column_concat_row. right. left. reflexivity.
Qed.

(** X9.  The login only ever appends to the registry.  Whatever the session,
    the users file, the text typed and the button, a run of the login that
    completes leaves the users file as it was, or writes the registry it
    loaded with one record appended: the record of a phone that no row of
    the loaded registry shows, that is not empty and carries no whitespace
    around it, with the role "user"; that run returns the flag of a plain
    user.  The next load finds the rows of before followed by the new
    record, its name blank and its phone blank too when the phone is a text
    the reader takes for a missing value.  No run edits or removes a record
    or writes the role "admin". *)
Theorem login_only_appends_a_user session users_file phone_input login_clicked
  triple session_state users_file' :
  main_login session users_file phone_input login_clicked
  = Ok (triple, session_state, users_file') ->
  users_file' = users_file
  \/ (let p := strip phone_input in
      p <> "" /\ strip p = p
      /\ filter (has_phone p) (registry_rows users_file) = []
      /\ users_file'
         = Csv (concat_row (load_users users_file) Users.labels
                  (Users.mkRow (Val p) (Val "") (Val "user")))
      /\ registry_rows users_file'
         = registry_rows users_file
           ++ [Users.mkRow (if is_na p then NaN else Val p) NaN
                 (Val "user")]
      /\ triple = (true, false, p)).
Proof.
  unfold main_login, show_login. intros H.
  destruct (logged_in match session with
                      | Some s => s
                      | None => mkSession false false ""
                      end);
    cbn [negb] in H; [injection H as _ _ <-; left; reflexivity|].
  destruct login_clicked; [|injection H as _ _ <-; left; reflexivity].
  destruct (String.eqb_spec (strip phone_input) "") as [E|Hne];
    cbn [negb] in H; [injection H as _ _ <-; left; reflexivity|].
  destruct (authenticate users_file (load_users users_file)
              (strip phone_input)) as [[a f]|e] eqn:Ha; [|discriminate].
  cbn [bind] in H. injection H as <- _ <-.
  apply authenticate_writes in Ha as [->|(Hf & -> & ->)];
    [left; reflexivity|].
  right. cbn zeta. split; [exact Hne|]. split; [apply strip_idem|].
  split; [exact Hf|]. split; [reflexivity|].
  split; [apply registry_rows_appended | reflexivity].
Qed.

(** The first login of "+97100000" against the office registry, typed with
    spaces around it: the registry keeps its administrator and gains the
    phone, without the spaces, as a user. *)
Lemma login_appends_to_office_registry :
  exists users_file',
    main_login None (Csv office_registry) "  +97100000 " true
    = Ok ((true, false, "+97100000"), mkSession true false "+97100000",
          users_file')
    /\ registry_rows users_file'
       = rows office_registry
         ++ [Users.mkRow (Val "+97100000") NaN (Val "user")].
Proof.
  eexists. split; [reflexivity|].
  destruct (login_only_appends_a_user None (Csv office_registry)
              "  +97100000 " true _ _ _ eq_refl)
    as [E|(_ & _ & _ & _ & Hr & _)]; [discriminate E | exact Hr].
Defined.

(** X10.  A session that is logged in stays as it is.  When a run of the
    login authenticates somebody, every later run of the same session
    returns the same triple again, whatever the registry then holds and
    whatever is typed or pressed, and does not write the users file: a role
    changed in the registry takes effect in a new session only. *)
Theorem login_is_kept_for_the_session session users_file users phone_input
  login_clicked is_admin phone session_state users_file' :
  show_login session users_file users phone_input login_clicked
  = Ok ((true, is_admin, phone), session_state, users_file') ->
  forall users_file2 users2 phone_input2 login_clicked2,
    show_login (Some session_state) users_file2 users2 phone_input2
      login_clicked2
    = Ok ((true, is_admin, phone), session_state, users_file2).
Proof.
  unfold show_login. intros H.
  destruct (logged_in match session with
                      | Some s => s
                      | None => mkSession false false ""
                      end) eqn:Hl; cbn [negb] in H.
  - injection H as <- <- <- _. intros. rewrite Hl. reflexivity.
  - destruct login_clicked; [|discriminate].
    destruct (negb (strip phone_input =? "")%string); [|discriminate].
    destruct (authenticate users_file users (strip phone_input))
      as [[a f]|e]; [|discriminate].
    cbn [bind] in H. injection H as <- <- <- _. intros. reflexivity.
Qed.

(** The administrator of the office registry logs in; afterwards her role
    is changed to "user" in the file, and the session still sees an
    administrator. *)
Lemma login_kept_after_demotion :
  let demoted :=
    {| columns := Users.labels;
       rows := [Users.mkRow (Val "+97150000001") (Val "Huda") (Val "user")] |}
  in
  show_login (Some (mkSession true true "+97150000001")) (Csv demoted)
    demoted "" false
  = Ok ((true, true, "+97150000001"), mkSession true true "+97150000001",
        Csv demoted).
Proof.
  intros demoted.
  exact (login_is_kept_for_the_session None (Csv office_registry)
           office_registry "+97150000001" true true "+97150000001"
           (mkSession true true "+97150000001") (Csv office_registry)
           eq_refl (Csv demoted) demoted "" false).
Defined.

(** X11.  Registries the login cannot read.  For a logged-out session and a
    phone that is not blank, pressing Login fails with [KeyError] when the
    registry has no column "phone", with [KeyError] when the phone is known
    but there is no column "role", and with [AttributeError] when the role
    cell of the phone's first record is blank: that phone cannot log in. *)
Theorem login_fails_on_unreadable_registry session users_file users
  phone_input :
  logged_out session ->
  strip phone_input <> "" ->
  (has_column users "phone" = false ->
   show_login session users_file users phone_input true = Raise KeyError)
  /\ (forall u rest,
        has_column users "phone" = true ->
        filter (has_phone (strip phone_input)) (rows users) = u :: rest ->
        (has_column users "role" = false ->
         show_login session users_file users phone_input true
         = Raise KeyError)
        /\ (has_column users "role" = true ->
            isna (Users.role u) = true ->
            show_login session users_file users phone_input true
            = Raise AttributeError)).
Proof.
  intros Hs Hne. split.
  - intros Hp. rewrite show_login_submitted by assumption.
    unfold authenticate, contains, getitem. cbn [label Users.Phone].
    rewrite Hp. reflexivity.
  - intros u rest Hp Hf. split.
    + intros Hr. rewrite show_login_submitted by assumption.
      rewrite (authenticate_found users_file users _ u rest Hp Hf), Hr.
      reflexivity.
    + intros Hr Hna. rewrite show_login_submitted by assumption.
      rewrite (authenticate_found users_file users _ u rest Hp Hf), Hr.
      cbn [bind].
      destruct (Users.role u); [reflexivity | reflexivity | discriminate].
Qed.

(** Sami's record has no role: his login fails, every time. *)
Lemma login_patchy_registry :
  show_login None (Csv patchy_registry) patchy_registry "+97150000002" true
  = Raise AttributeError.
Proof.
  destruct (login_fails_on_unreadable_registry None (Csv patchy_registry)
              patchy_registry "+97150000002" I) as [_ H]; [discriminate|].
  destruct (H _ [] eq_refl eq_refl) as [_ Ha].
  exact (Ha eq_refl eq_refl).
Defined.

(** ** The pages of the login variant *)

Lemma page_of_SummaryExport selected_tab is_admin :
  page_of selected_tab is_admin = SummaryExport
  <-> selected_tab = "Summary & Export" /\ is_admin = true.
Proof.
  unfold page_of. split.
  - destruct (selected_tab =? "Submit Entry")%string; [discriminate|].
    destruct (String.eqb_spec selected_tab "Summary & Export") as [->|];
      [|discriminate].
    destruct is_admin; [auto | discriminate].
  - intros [-> ->]. reflexivity.
Qed.

Lemma main_page_after_login session users_file data_file phone_input
  login_clicked selected_tab page session_state users_file' :
  main_page session users_file data_file phone_input login_clicked
    selected_tab = Ok (page, session_state, users_file') ->
  exists authenticated is_admin phone,
    main_login session users_file phone_input login_clicked
    = Ok ((authenticated, is_admin, phone), session_state, users_file')
    /\ (authenticated = false -> page = Stopped)
    /\ (authenticated = true -> page = page_of selected_tab is_admin).
Proof.
  unfold main_page. intros H.
  destruct (main_login session users_file phone_input login_clicked)
    as [[[[[au ad] ph] st] f]|e]; [|discriminate].
  cbn [bind] in H. destruct au; cbn [negb] in H.
  - destruct (NoVerification.load_data data_file) as [[[p t] i]|e];
      [|discriminate].
    cbn [bind] in H. destruct (owners p); [|discriminate].
    cbn [bind] in H. injection H as <- <- <-.
    exists true, ad, ph. split; [reflexivity|].
    split; [discriminate | reflexivity].
  - injection H as <- <- <-. exists false, ad, ph.
    split; [reflexivity|]. split; [reflexivity | discriminate].
Qed.

Lemma show_login_session session users_file users phone_input login_clicked
  authenticated is_admin phone session_state users_file' :
  show_login session users_file users phone_input login_clicked
  = Ok ((authenticated, is_admin, phone), session_state, users_file') ->
  authenticated = true ->
  session_state = mkSession true is_admin phone.
Proof.
  unfold show_login. intros H ->.
  destruct (logged_in match session with
                      | Some s => s
                      | None => mkSession false false ""
                      end) eqn:Hl; cbn [negb] in H.
  - injection H as <- <- <- _.
    destruct (match session with
              | Some s => s
              | None => mkSession false false ""
              end) as [l a ph].
    cbn in Hl. subst l. reflexivity.
  - destruct login_clicked; [|discriminate].
    destruct (negb (strip phone_input =? "")%string); [|discriminate].
    destruct (authenticate users_file users (strip phone_input))
      as [[a f]|e]; [|discriminate].
    cbn [bind] in H. injection H as <- <- <- _. reflexivity.
Qed.

(** X12.  Who sees the summary.  The navigation offers "Summary & Export" to
    an administrator only, and the summary branch is taken only for that tab
    together with the admin flag, so a tab name alone does not open it.  Over
    the whole of [main]: when the summary page is shown, the session is
    logged in with the admin flag; and the run in which a phone is first
    registered never shows it. *)
Theorem summary_page_only_for_admin :
  (forall selected_tab is_admin,
     page_of selected_tab is_admin = SummaryExport
     <-> selected_tab = "Summary & Export" /\ is_admin = true)
  /\ (forall is_admin,
        In "Summary & Export" (tabs is_admin) <-> is_admin = true)
  /\ (forall is_admin selected_tab,
        In selected_tab (tabs is_admin) ->
        page_of selected_tab is_admin <> Blank)
  /\ (forall session users_file data_file phone_input login_clicked
             selected_tab session_state users_file',
        main_page session users_file data_file phone_input login_clicked
          selected_tab = Ok (SummaryExport, session_state, users_file') ->
        logged_in session_state = true /\ is_admin session_state = true)
  /\ (forall session users_file data_file phone_input selected_tab
             session_state users_file',
        logged_out session ->
        has_column (load_users users_file) "phone" = true ->
        filter (has_phone (strip phone_input)) (registry_rows users_file)
        = [] ->
        main_page session users_file data_file phone_input true selected_tab
        <> Ok (SummaryExport, session_state, users_file')).
Proof.
  split; [exact page_of_SummaryExport|]. split.
  { intros [|]; cbn [tabs In]; split; intros H.
    - reflexivity.
    - right. left. reflexivity.
    - destruct H as [H|[]]. discriminate.
    - discriminate. }
  split.
  { intros [|] tab Hin; cbn in Hin.
    - destruct Hin as [<-|[<-|[]]]; discriminate.
    - destruct Hin as [<-|[]]; discriminate. }
  assert (Hmain : forall session users_file data_file phone_input
                         login_clicked selected_tab session_state users_file',
             main_page session users_file data_file phone_input login_clicked
               selected_tab = Ok (SummaryExport, session_state, users_file') ->
             exists phone,
               main_login session users_file phone_input login_clicked
               = Ok ((true, true, phone), session_state, users_file')).
  { intros session users_file data_file phone_input login_clicked
      selected_tab session_state users_file' H.
    apply main_page_after_login in H as (au & ad & ph & Hl & Hstop & Hpage).
    destruct au; [|specialize (Hstop eq_refl); discriminate].
    specialize (Hpage eq_refl). symmetry in Hpage.
    apply page_of_SummaryExport in Hpage as [_ ->]. now exists ph. }
  split.
  - intros session users_file data_file phone_input login_clicked
      selected_tab session_state users_file' H.
    apply Hmain in H as (ph & Hl). unfold main_login in Hl.
    rewrite (show_login_session _ _ _ _ _ _ _ _ _ _ Hl eq_refl).
    split; reflexivity.
  - intros session users_file data_file phone_input selected_tab
      session_state users_file' Hs Hp Hf H.
    apply Hmain in H as (ph & Hl). unfold main_login in Hl.
    destruct (String.eqb_spec (strip phone_input) "") as [E|Hne].
    + unfold show_login in Hl.
      destruct (logged_in match session with
                          | Some s => s
                          | None => mkSession false false ""
                          end) eqn:Hlog.
      * destruct session as [s|]; cbn in Hs, Hlog; congruence.
      * cbn [negb] in Hl. rewrite E in Hl. discriminate.
    + rewrite show_login_submitted in Hl by assumption.
      rewrite (authenticate_unknown users_file (load_users users_file)
                 (strip phone_input) Hp Hf) in Hl.
      discriminate.
Qed.

(** A new phone that asks for the summary tab gets nothing of it, while the
    administrator of the office registry gets the summary. *)
Lemma summary_page_office_registry :
  main_page None (Csv office_registry) (Some acme_workbook) "+97100000" true
    "Summary & Export"
  <> Ok (SummaryExport, mkSession true true "+97100000", Csv office_registry)
  /\ exists session_state users_file',
       main_page None (Csv office_registry) (Some acme_workbook)
         "+97150000001" true "Summary & Export"
       = Ok (SummaryExport, session_state, users_file')
       /\ is_admin session_state = true.
Proof.
  destruct summary_page_only_for_admin as (_ & _ & _ & Hadmin & Hnew).
  split.
  - apply Hnew; [exact I | reflexivity | reflexivity].
  - eexists; eexists. split; [reflexivity|].
    exact (proj2 (Hadmin None (Csv office_registry) (Some acme_workbook)
                    "+97150000001" true "Summary & Export" _ _ eq_refl)).
Defined.

(** X13.  Without the workbook.  The base variant checks for the file and
    stops the page with a message instead of loading.  The login variant
    stops after the login form while nobody is authenticated, workbook or
    not, and reads the workbook only after that: a run that authenticates
    somebody while the file is missing fails with [FileNotFoundError]. *)
Theorem page_without_workbook session users_file phone_input login_clicked
  selected_tab authenticated is_admin phone session_state users_file' :
  main_login session users_file phone_input login_clicked
  = Ok ((authenticated, is_admin, phone), session_state, users_file') ->
  main_tables None = Ok None
  /\ (authenticated = false ->
      forall data_file,
        main_page session users_file data_file phone_input login_clicked
          selected_tab = Ok (Stopped, session_state, users_file'))
  /\ (authenticated = true ->
      main_page session users_file None phone_input login_clicked
        selected_tab = Raise FileNotFoundError).
Proof.
  intros H. split; [reflexivity|]. unfold main_page. rewrite H. cbn [bind].
  split; intros ->; reflexivity.
Qed.

(** Nothing typed yet: the page stops after the form.  The first login of a
    new phone while the workbook is missing: the phone is registered, and the
    page fails. *)
Lemma page_without_workbook_examples :
  main_page None NoFile None "" false "Submit Entry"
  = Ok (Stopped, mkSession false false "", NoFile)
  /\ main_page None NoFile None "+97100000" true "Submit Entry"
     = Raise FileNotFoundError
  /\ exists users_file',
       main_login None NoFile "+97100000" true
       = Ok ((true, false, "+97100000"), mkSession true false "+97100000",
             users_file')
       /\ registry_rows users_file'
          = [Users.mkRow (Val "+97100000") NaN (Val "user")].
Proof.
  split.
  - destruct (page_without_workbook None NoFile "" false "Submit Entry"
                false false "" (mkSession false false "") NoFile eq_refl)
      as (_ & H & _).
    exact (H eq_refl None).
  - split.
    + destruct (page_without_workbook None NoFile "+97100000" true
                  "Submit Entry" true false "+97100000"
                  (mkSession true false "+97100000")
                  (Csv (concat_row empty_users Users.labels
                          (registered "+97100000"))) eq_refl)
        as (_ & _ & H).
      exact (H eq_refl).
    + eexists. split; reflexivity.
Defined.

(** ** The summary and the form *)

(** X14.  The summary and the entry form agree.  For a project row that is
    the first of its owner and name, with a name that is not empty and
    quantity cells that are not blank, each remaining number of the form is
    the total of the row's summary minus its completed number, or 0 when
    that is negative. *)
Theorem summary_agrees_with_remaining project_df inputs_df p rest :
  has_columns project_df (project_key_labels ++ quantity_labels) = true ->
  has_columns inputs_df inputs_read_labels = true ->
  truthy_str (ProjectList.project_name p) = true ->
  filter (is_project (ProjectList.project_owner p)
            (ProjectList.project_name p)) (rows project_df) = p :: rest ->
  quantities_present p ->
  exists s q,
    summary_row project_df inputs_df p = Ok s
    /\ remaining project_df inputs_df (ProjectList.project_owner p)
         (ProjectList.project_name p) = Ok q
    /\ indoor q = Z.max (Indoors_Total s - Indoors_Completed s) 0
    /\ vrf q = Z.max (VRF_OD_Total s - VRF_OD_Completed s) 0
    /\ dx q = Z.max (DX_Outdoor_Total s - DX_Outdoor_Completed s) 0
    /\ ahu q = Z.max (AHU_Total s - AHU_Completed s) 0.
Proof.
  intros Hp Hi Ht Hm Hq.
  assert (Hkeys : has_columns project_df project_key_labels = true).
  { pose proof Hp as Hp'. split_columns Hp'.
    unfold has_columns, project_key_labels. cbn [forallb].
    repeat match goal with
           | Hc : has_column project_df _ = true |- _ => rewrite Hc; clear Hc
           end.
    reflexivity. }
  destruct (summary_row_ok project_df inputs_df p Hkeys Hi Hq)
    as (s & Hs & Hof).
  rewrite (remaining_match _ _ _ _ _ _ Hp Hi Ht Hm Hq).
  exists s. eexists. split; [exact Hs|]. split; [reflexivity|].
  destruct Hof as (_ & _ & C1 & C2 & C3 & C4 & T1 & T2 & T3 & T4).
  rewrite C1, C2, C3, C4, T1, T2, T3, T4.
  split_columns Hp.
  rewrite !quota_present by assumption.
  cbn [indoor vrf dx ahu]. repeat split; reflexivity.
Qed.

(** Tower A after three busy days: 12 of 10 indoor units in the summary, 0
    remaining in the form; 3 of 5 VRF units, 2 remaining. *)
Lemma summary_agrees_acme :
  exists s q,
    summary_row acme_projects busy_log acme_tower = Ok s
    /\ remaining acme_projects busy_log (Val "Acme") (Val "Tower A") = Ok q
    /\ Indoors_Completed s = 12 /\ indoor q = 0 /\ vrf q = 2.
Proof.
  destruct (summary_agrees_with_remaining acme_projects busy_log acme_tower []
              eq_refl eq_refl eq_refl eq_refl)
    as (s & q & Hs & Hq & Hi & Hv & _).
  { unfold quantities_present; simpl; repeat split; discriminate. }
  exists s, q. split; [exact Hs|]. split; [exact Hq|].
  cbv in Hs. injection Hs as <-.
  split; [reflexivity|]. rewrite Hi, Hv. split; reflexivity.
Defined.

Lemma total_of_NaN project_df p c :
  has_column project_df (label c) = true ->
  field c p = NaN ->
  total_of project_df p c = Raise ValueError.
Proof.
  intros Hc Hp. unfold total_of, row_get. rewrite Hc, Hp. reflexivity.
Qed.

Lemma quantities_present_dec (p : ProjectList.Row) :
  {quantities_present p} + {~ quantities_present p}.
Proof.
  unfold quantities_present.
  destruct (cell_NaN_dec (ProjectList.indoors_qty p));
    [right; tauto|].
  destruct (cell_NaN_dec (ProjectList.vrf_od_qty p)); [right; tauto|].
  destruct (cell_NaN_dec (ProjectList.dx_outdoor_qty p)); [right; tauto|].
  destruct (cell_NaN_dec (ProjectList.ahu_qty p)); [right; tauto|].
  left. tauto.
Qed.

Lemma summary_row_blank project_df inputs_df p :
  has_columns project_df (project_key_labels ++ quantity_labels) = true ->
  ~ quantities_present p ->
  summary_row project_df inputs_df p = Raise ValueError.
Proof.
  intros Hp Hq. split_columns Hp.
  unfold summary_row, row_getitem.
  cbn [label ProjectList.Project_Owner ProjectList.Project_Name].
  repeat match goal with
         | H : has_column project_df "Project Owner" = true |- _ =>
             rewrite H; clear H
         | H : has_column project_df "Project Name" = true |- _ =>
             rewrite H; clear H
         end.
  cbn [bind field].
  destruct (cell_NaN_dec (ProjectList.indoors_qty p)) as [E1|N1].
  { rewrite (total_of_NaN project_df p ProjectList.Indoors_Qty)
      by assumption. reflexivity. }
  rewrite (total_of_ok project_df p ProjectList.Indoors_Qty) by exact N1.
  cbn [bind].
  destruct (cell_NaN_dec (ProjectList.vrf_od_qty p)) as [E2|N2].
  { rewrite (total_of_NaN project_df p ProjectList.VRF_OD_Qty)
      by assumption. reflexivity. }
  rewrite (total_of_ok project_df p ProjectList.VRF_OD_Qty) by exact N2.
  cbn [bind].
  destruct (cell_NaN_dec (ProjectList.dx_outdoor_qty p)) as [E3|N3].
  { rewrite (total_of_NaN project_df p ProjectList.DX_Outdoor_Qty)
      by assumption. reflexivity. }
  rewrite (total_of_ok project_df p ProjectList.DX_Outdoor_Qty) by exact N3.
  cbn [bind].
  destruct (cell_NaN_dec (ProjectList.ahu_qty p)) as [E4|N4].
  { rewrite (total_of_NaN project_df p ProjectList.AHU_Qty)
      by assumption. reflexivity. }
  exfalso. apply Hq. unfold quantities_present. auto.
Qed.

Lemma summary_loop_blank project_df inputs_df p_rows :
  has_columns project_df (project_key_labels ++ quantity_labels) = true ->
  has_columns inputs_df inputs_read_labels = true ->
  (exists p, In p p_rows /\ ~ quantities_present p) ->
  summary_loop project_df inputs_df p_rows = Raise ValueError.
Proof.
  intros Hp Hi. induction p_rows as [|p0 rest IH]; intros (p & Hin & Hbad).
  - destruct Hin.
  - cbn [summary_loop].
    destruct (quantities_present_dec p0) as [Hok|Hno].
    + assert (Hkeys : has_columns project_df project_key_labels = true).
      { pose proof Hp as Hp'. apply has_columns_cons in Hp' as [Ho Hp'].
        apply has_columns_cons in Hp' as [Hn _].
        unfold has_columns, project_key_labels. cbn [forallb].
        now rewrite Ho, Hn. }
      destruct (summary_row_ok project_df inputs_df p0 Hkeys Hi Hok)
        as (s & Hs & _).
      rewrite Hs. cbn [bind]. rewrite IH; [reflexivity|].
      destruct Hin as [->|Hin]; [contradiction|]. now exists p.
    + now rewrite (summary_row_blank project_df inputs_df p0 Hp Hno).
Qed.

Lemma Forall2_Forall_r {A B : Type} (P : A -> B -> Prop) (Q : B -> Prop)
  (l : list A) (l' : list B) :
  Forall2 P l l' -> (forall a b, P a b -> Q b) -> Forall Q l'.
Proof.
  intros H HPQ. induction H; constructor; eauto.
Qed.

(** X15.  How the summary reads the quantities.  A quantity column that the
    sheet does not have counts as a total of 0 for every project (the entry
    form, for a selected project, fails with [KeyError] on the same sheet),
    so the summary is still produced when every cell that is there is not
    blank.  But a single blank quantity cell, in any project row, makes the
    whole summary fail with [ValueError]. *)
Theorem summary_reads_quantities project_df inputs_df :
  has_columns project_df project_key_labels = true ->
  has_columns inputs_df inputs_read_labels = true ->
  (Forall (quantities_readable project_df) (rows project_df) ->
   exists summary,
     summary_rows project_df inputs_df = Ok summary
     /\ Forall2 (summary_of project_df inputs_df) (rows project_df) summary
     /\ (has_column project_df "Indoors Qty" = false ->
         Forall (fun s => Indoors_Total s = 0) summary)
     /\ (has_column project_df "VRF OD Qty" = false ->
         Forall (fun s => VRF_OD_Total s = 0) summary)
     /\ (has_column project_df "DX Outdoor Qty" = false ->
         Forall (fun s => DX_Outdoor_Total s = 0) summary)
     /\ (has_column project_df "AHU Qty" = false ->
         Forall (fun s => AHU_Total s = 0) summary))
  /\ (has_column project_df "Indoors Qty" = false ->
      forall owner name p rest,
        truthy_str name = true ->
        filter (is_project owner name) (rows project_df) = p :: rest ->
        remaining project_df inputs_df owner name = Raise KeyError)
  /\ (has_columns project_df quantity_labels = true ->
      (exists p, In p (rows project_df) /\ ~ quantities_present p) ->
      summary_rows project_df inputs_df = Raise ValueError).
Proof.
  intros Hp Hi. split; [|split].
  - intros Hq.
    destruct (summary_loop_readable project_df inputs_df (rows project_df)
                Hp Hi Hq) as (summary & Hsum & Hall).
    exists summary. split; [exact Hsum|]. split; [exact Hall|].
    repeat split; intros Habs;
      apply (Forall2_Forall_r _ _ _ _ Hall);
      intros p s (_ & _ & _ & _ & _ & _ & T1 & T2 & T3 & T4).
    + rewrite T1. now apply quota_absent.
    + rewrite T2. now apply quota_absent.
    + rewrite T3. now apply quota_absent.
    + rewrite T4. now apply quota_absent.
  - intros Habs owner name p rest Ht Hm. unfold remaining. rewrite Ht.
    pose proof Hp as Hp'. apply has_columns_cons in Hp' as [Ho Hp'].
    apply has_columns_cons in Hp' as [Hn _].
    rewrite project_match_ok by assumption. cbn [bind].
    rewrite (empty_false (loc project_df (is_project owner name))
               "Project Owner" p rest Ho Hm).
    cbn [negb]. unfold total, iloc0, loc. cbn [rows]. rewrite Hm.
    cbn [label ProjectList.Indoors_Qty]. unfold has_column in *.
    cbn [columns]. rewrite Habs. reflexivity.
  - intros Hq Hbad. apply summary_loop_blank; [|exact Hi|exact Hbad].
    unfold has_columns in *. cbn [app project_key_labels].
    unfold project_key_labels in Hp. cbn [forallb] in *.
    apply andb_true_iff in Hp as [Ho Hp].
    apply andb_true_iff in Hp as [Hn _].
    now rewrite Ho, Hn.
Qed.

(** The sheet without "Indoors Qty": the summary shows an indoor total of
    0 for Tower A, the form fails.  The sheet with Tower B's blank cell: no
    summary at all. *)
Lemma summary_reads_quantities_examples :
  (exists s, summary_rows outdoor_projects acme_log = Ok [s]
             /\ Indoors_Total s = 0 /\ Indoors_Completed s = 4)
  /\ remaining outdoor_projects acme_log (Val "Acme") (Val "Tower A")
     = Raise KeyError
  /\ summary_rows {| columns := ProjectList.labels;
                     rows := [acme_tower; tower_b] |} acme_log
     = Raise ValueError.
Proof.
  split; [|split].
  - destruct (summary_reads_quantities outdoor_projects acme_log
                eq_refl eq_refl) as (H & _ & _).
    destruct H as (summary & Hsum & _ & H0 & _).
    { constructor; [|constructor].
      split; [left; reflexivity|]. repeat split; right; discriminate. }
    assert (E : Ok summary
                = Ok [mkSummaryRow (Val "Acme") (Val "Tower A") 4 0 1 5 0 0
                        0 2])
      by (rewrite <- Hsum; reflexivity).
    injection E as ->. eexists. split; [exact Hsum|]. split; reflexivity.
  - destruct (summary_reads_quantities outdoor_projects acme_log
                eq_refl eq_refl) as (_ & H & _).
    exact (H eq_refl (Val "Acme") (Val "Tower A") acme_tower [] eq_refl
             eq_refl).
  - destruct (summary_reads_quantities
                {| columns := ProjectList.labels;
                   rows := [acme_tower; tower_b] |} acme_log
                eq_refl eq_refl) as (_ & _ & H).
    apply H; [reflexivity|]. exists tower_b. split.
    + right. left. reflexivity.
    + intros [Hq _]. apply Hq. reflexivity.
Defined.

(** ** The recent submissions *)

Lemma columns_concat_row_nonempty {R : Type} (df : DataFrame R) (r : R) :
  columns (concat_row df Inputs.labels r) <> [].
Proof.
  unfold concat_row. cbn [columns]. destruct (columns df) as [|c cs] eqn:E.
  - unfold has_column. rewrite E. cbn. discriminate.
  - discriminate.
Qed.

Lemma empty_concat_row {R : Type} (df : DataFrame R) (r : R) :
  empty (concat_row df Inputs.labels r) = false.
Proof.
  unfold empty. pose proof (columns_concat_row_nonempty df r) as Hc.
  destruct (columns (concat_row df Inputs.labels r)); [contradiction|].
  rewrite rows_concat_row. destruct (rows df); reflexivity.
Qed.

(** X16.  The recent submissions of the login variant.  Nothing is shown
    for an empty log.  Otherwise the rows shown are the last rows of the
    log, in their order, ten of them or the whole log when it is shorter;
    right after a submission the view is there and its last row is the new
    record. *)
Theorem recent_submissions_are_the_last_ten (inputs_df : DataFrame Inputs.Row) :
  (recent_submissions inputs_df = None <-> empty inputs_df = true)
  /\ (forall shown,
        recent_submissions inputs_df = Some shown ->
        columns shown = columns inputs_df
        /\ List.length (rows shown)
           = Nat.min 10 (List.length (rows inputs_df))
        /\ exists older, rows inputs_df = older ++ rows shown)
  /\ (forall r,
        exists shown earlier,
          recent_submissions (concat_row inputs_df Inputs.labels r)
          = Some shown
          /\ rows shown = earlier ++ [r]).
Proof.
  unfold recent_submissions. split; [|split].
  - destruct (empty inputs_df); cbn [negb]; split; congruence.
  - intros shown H. destruct (empty inputs_df); [discriminate|].
    cbn [negb] in H. injection H as <-. unfold tail. cbn [columns rows].
    split; [reflexivity|]. split.
    + rewrite length_skipn. lia.
    + exists (firstn (List.length (rows inputs_df) - 10) (rows inputs_df)).
      symmetry. apply firstn_skipn.
  - intros r. rewrite empty_concat_row. cbn [negb].
    eexists. exists (skipn (List.length (rows inputs_df) + 1 - 10)
                       (rows inputs_df)).
    split; [reflexivity|].
    unfold tail. cbn [rows]. rewrite rows_concat_row, length_app.
    cbn [List.length]. rewrite skipn_app.
    replace (List.length (rows inputs_df) + 1 - 10
             - List.length (rows inputs_df))%nat with 0%nat by lia.
    reflexivity.
Qed.

(** Twelve records in the log and a thirteenth submitted: the view shows
    ten rows, the records 4 to 12 and the new one. *)
Lemma recent_submissions_of_twelve_days :
  exists shown,
    recent_submissions
      (concat_row {| columns := Inputs.labels; rows := twelve_days |}
         Inputs.labels acme_day1) = Some shown
    /\ List.length (rows shown) = 10%nat
    /\ last (rows shown) over_quota_row = acme_day1
    /\ map Inputs.indoors_completed (rows shown)
       = [4; 5; 6; 7; 8; 9; 10; 11; 12; 4].
Proof.
  destruct (recent_submissions_are_the_last_ten
              {| columns := Inputs.labels; rows := twelve_days |})
    as (_ & _ & H).
  destruct (H acme_day1) as (shown & earlier & Hs & Hr).
  exists shown. split; [exact Hs|].
  cbv in Hs. injection Hs as <-. repeat split; reflexivity.
Defined.
